(** * Barcelona_design backend: the error-response pipeline, the item
      controller, the routes and the configuration loader

    A shallow embedding of the JavaScript sources

    - [src/middleware/errorHandler.js] ([errorHandler], [getErrorMessage],
      [globalErrorHandler]),
    - the validation middleware ([validateRequest]),
    - the item controller (the five [...Handler] functions),
    - the server's own routes and the router of [src/routes/index.js],
    - the configuration module ([validateEnv], [getConfig]),

    followed by the properties of the specification that concern them. *)

From Stdlib Require Import ZArith Lia Ascii String.
From stdpp Require Import base option strings list gmap pretty.

Local Open Scope Z_scope.
Local Set Warnings "-register-all".

(** ** JavaScript values *)

Module JS.

(** The values the program handles.  Numbers are the integers, [NaN]
    and the two infinities: the program's own arithmetic is [parseInt]
    and constant status codes, and [JNum n] stands for the double that
    is the integer [n].  An object is its own properties in insertion
    order; [cls] is [None] for a plain object and [Some n] for an instance of [Error] whose
    prototype chain supplies the name [n] (and the empty message).
    [JFun] stands for a built-in function, which is all the program can
    meet as a value (the members of [Object.prototype]). *)
Inductive jsval : Type :=
| JUndefined
| JNull
| JBool (b : bool)
| JNum (n : Z)
| JNaN
| JStr (s : string)
| JArr (elems : list jsval)
| JObj (cls : option string) (props : list (string * jsval))
| JFun (name : string)
| JInfinity (negative : bool).

(** ToBoolean. *)
Definition truthy (v : jsval) : bool :=
  match v with
  | JUndefined | JNull | JBool false | JNum 0 | JNaN | JStr "" => false
  | _ => true
  end.

(** [a || b] *)
Definition js_or (a b : jsval) : jsval := if truthy a then a else b.

(** [v === 's'] for a string literal [s]. *)
Definition is_str (v : jsval) (s : string) : bool :=
  match v with
  | JStr t => bool_decide (t = s)
  | _ => false
  end.

(** Own properties: first binding of the key. *)
Fixpoint lookup_prop (k : string) (ps : list (string * jsval)) : option jsval :=
  match ps with
  | [] => None
  | (k', v) :: r => if bool_decide (k = k') then Some v else lookup_prop k r
  end.

(** [o.k = v] on the property list: overwrite in place, or append. *)
Fixpoint set_prop (k : string) (v : jsval) (ps : list (string * jsval))
  : list (string * jsval) :=
  match ps with
  | [] => [(k, v)]
  | (k', v') :: r =>
      if bool_decide (k = k') then (k, v) :: r else (k', v') :: set_prop k v r
  end.

(** [v.k] for a value that is neither [undefined] nor [null], and a
    property name [k] that no built-in prototype defines apart from
    [name] and [message] on errors and [name] on functions.  These are the
    only names the program reads with a fixed key ([message], [stack],
    [statusCode], [status], [statusMessage], [name], [details], [items],
    [pagination], [id], [description], [category]). *)
Definition get (v : jsval) (k : string) : jsval :=
  match v with
  | JObj cls ps =>
      match lookup_prop k ps with
      | Some x => x
      | None =>
          match cls with
          | Some n =>
              if bool_decide (k = "name") then JStr n
              else if bool_decide (k = "message") then JStr ""
              else JUndefined
          | None => JUndefined
          end
      end
  | JFun n => if bool_decide (k = "name") then JStr n else JUndefined
  | _ => JUndefined
  end.

(** [o.k = v] as a new value of the object. *)
Definition obj_set (o : jsval) (k : string) (v : jsval) : jsval :=
  match o with
  | JObj cls ps => JObj cls (set_prop k v ps)
  | _ => o
  end.

(** [o.k1.k2 = v] *)
Definition obj_set2 (o : jsval) (k1 k2 : string) (v : jsval) : jsval :=
  obj_set o k1 (obj_set (get o k1) k2 v).

(** [k in o], own keys of an object value. *)
Definition has_key (o : jsval) (k : string) : bool :=
  match o with
  | JObj _ ps => bool_decide (is_Some (lookup_prop k ps))
  | _ => false
  end.

Definition is_boolean (v : jsval) : bool :=
  match v with JBool _ => true | _ => false end.

(** [v instanceof Error] *)
Definition instanceof_Error (v : jsval) : bool :=
  match v with JObj (Some _) _ => true | _ => false end.

(** ToString.  Arrays join their elements with a comma, [undefined] and
    [null] elements printing as nothing; a plain object prints as
    [[object Object]]; an error prints through [Error.prototype.toString].
    Integers print in decimal, as JavaScript prints those it holds
    exactly, up to 2^53; beyond, JavaScript prints the shortest digits
    that read back as the same double. *)
Fixpoint to_string (v : jsval) : string :=
  match v with
  | JUndefined => "undefined"
  | JNull => "null"
  | JBool true => "true"
  | JBool false => "false"
  | JNum n => pretty n
  | JNaN => "NaN"
  | JStr s => s
  | JArr l =>
      (fix join (l : list jsval) : string :=
         match l with
         | [] => ""
         | x :: r =>
             let sx := match x with
                       | JUndefined | JNull => ""
                       | _ => to_string x
                       end in
             match r with
             | [] => sx
             | _ => sx +:+ "," +:+ join r
             end
         end) l
  | JObj None _ => "[object Object]"
  | JObj (Some n) ps =>
      let find :=
        fix find (k dflt : string) (ps : list (string * jsval)) : option string :=
          match ps with
          | [] => None
          | (k', x) :: r =>
              if bool_decide (k = k')
              then Some (match x with JUndefined => dflt | _ => to_string x end)
              else find k dflt r
          end in
      let name := default n (find "name" "Error" ps) in
      let msg := default "" (find "message" "" ps) in
      if bool_decide (name = "") then msg
      else if bool_decide (msg = "") then name
      else name +:+ ": " +:+ msg
  | JFun n => "function " +:+ n +:+ "() { [native code] }"
  | JInfinity false => "Infinity"
  | JInfinity true => "-Infinity"
  end.

(** The names every plain object inherits from [Object.prototype]. *)
Definition object_prototype_members : list string :=
  [ "constructor"; "__defineGetter__"; "__defineSetter__"; "hasOwnProperty";
    "__lookupGetter__"; "__lookupSetter__"; "isPrototypeOf";
    "propertyIsEnumerable"; "toString"; "valueOf"; "toLocaleString" ].

Fixpoint assoc (k : string) (table : list (string * string)) : option string :=
  match table with
  | [] => None
  | (k', s) :: r => if bool_decide (k = k') then Some s else assoc k r
  end.

(** [table[key]] on an object literal whose values are strings: the key is
    converted with ToString, own properties come first, then the members
    of [Object.prototype] ([__proto__] reads the prototype object). *)
Definition index_literal (table : list (string * string)) (key : jsval) : jsval :=
  let k := to_string key in
  match assoc k table with
  | Some s => JStr s
  | None =>
      if bool_decide (k ∈ object_prototype_members) then JFun k
      else if bool_decide (k = "__proto__") then JObj None []
      else JUndefined
  end.

(** *** Strings as the built-ins read them

    A string is its UTF-8 bytes.  [code c] is the byte's number. *)

Definition code (c : ascii) : Z := Z.of_nat (nat_of_ascii c).

Definition of_codes (l : list Z) : string :=
  string_of_list_ascii (map (λ z, ascii_of_nat (Z.to_nat z)) l).

(** WhiteSpace and LineTerminator of the language, as byte sequences:
    TAB, LF, VT, FF, CR, SP, U+00A0, U+1680, U+2000..U+200A, U+2028,
    U+2029, U+202F, U+205F, U+3000 and U+FEFF. *)
Definition white_space : list (list Z) :=
  [ [9]; [10]; [11]; [12]; [13]; [32]; [194; 160]; [225; 154; 128] ]
  ++ map (λ b, [226; 128; b]) [128; 129; 130; 131; 132; 133; 134; 135; 136; 137; 138]
  ++ [ [226; 128; 168]; [226; 128; 169]; [226; 128; 175]; [226; 129; 159];
       [227; 128; 128]; [239; 187; 191] ].

Fixpoint strip_prefix (p s : string) : option string :=
  match p with
  | EmptyString => Some s
  | String a p' =>
      match s with
      | String b s' => if bool_decide (a = b) then strip_prefix p' s' else None
      | EmptyString => None
      end
  end.

(** The first of the prefixes [ps] that [s] starts with, removed. *)
Fixpoint strip_any (ps : list string) (s : string) : option string :=
  match ps with
  | [] => None
  | p :: r =>
      match strip_prefix p s with
      | Some s' => Some s'
      | None => strip_any r s
      end
  end.

Fixpoint drop_while_any (fuel : nat) (ps : list string) (s : string) : string :=
  match fuel with
  | O => s
  | S n =>
      match strip_any ps s with
      | Some s' => drop_while_any n ps s'
      | None => s
      end
  end.

Definition trim_start (s : string) : string :=
  drop_while_any (String.length s) (map of_codes white_space) s.

Definition trim_end (s : string) : string :=
  String.rev
    (drop_while_any (String.length s)
       (map (λ w, String.rev (of_codes w)) white_space) (String.rev s)).

Definition trim (s : string) : string := trim_end (trim_start s).

(** The value of a digit in bases up to 36. *)
Definition digit_value (c : ascii) : option Z :=
  let n := code c in
  if (48 <=? n) && (n <=? 57) then Some (n - 48)
  else if (97 <=? n) && (n <=? 122) then Some (n - 87)
  else if (65 <=? n) && (n <=? 90) then Some (n - 55)
  else None.

Definition is_digit_in (radix : Z) (c : ascii) : bool :=
  match digit_value c with
  | Some d => d <? radix
  | None => false
  end.

(** The longest prefix of digits of the base: its value, if there is at
    least one digit, and what follows it. *)
Fixpoint read_digits (radix : Z) (s : string) (acc : option Z) : option Z * string :=
  match s with
  | EmptyString => (acc, s)
  | String c r =>
      match digit_value c with
      | Some d =>
          if d <? radix
          then read_digits radix r (Some (default 0 acc * radix + d))
          else (acc, s)
      | None => (acc, s)
      end
  end.

Definition strip_sign (s : string) : bool * string :=
  match strip_prefix "-" s with
  | Some r => (true, r)
  | None => (false, default s (strip_prefix "+" s))
  end.

(** ExponentPart, optional, up to the end of the string. *)
Definition exponent_opt (s : string) : bool :=
  match s with
  | EmptyString => true
  | _ =>
      match strip_any ["e"; "E"] s with
      | Some r =>
          match read_digits 10 (strip_sign r).2 None with
          | (Some _, EmptyString) => true
          | _ => false
          end
      | None => false
      end
  end.

(** StrUnsignedDecimalLiteral. *)
Definition unsigned_decimal (s : string) : bool :=
  if bool_decide (s = "Infinity") then true
  else
    let '(d1, r1) := read_digits 10 s None in
    match strip_prefix "." r1 with
    | Some r =>
        let '(d2, r2) := read_digits 10 r None in
        (bool_decide (is_Some d1) || bool_decide (is_Some d2)) && exponent_opt r2
    | None => bool_decide (is_Some d1) && exponent_opt r1
    end.

(** All of [s] is one or more digits of the base. *)
Definition all_digits (radix : Z) (s : string) : bool :=
  match read_digits radix s None with
  | (Some _, EmptyString) => true
  | _ => false
  end.

(** StringNumericLiteral: whether [Number(s)] is a number.  The empty
    and the all-blank string convert to 0. *)
Definition is_numeric_string (s : string) : bool :=
  let t := trim s in
  if bool_decide (t = "") then true
  else
    match strip_any ["0x"; "0X"] t, strip_any ["0o"; "0O"] t, strip_any ["0b"; "0B"] t with
    | Some h, _, _ => all_digits 16 h
    | _, Some o, _ => all_digits 8 o
    | _, _, Some b => all_digits 2 b
    | None, None, None => unsigned_decimal (strip_sign t).2
    end.

(** [isNaN(s)] for a string [s]. *)
Definition isNaN_string (s : string) : bool := negb (is_numeric_string s).

(** [isNaN(v)]: objects and arrays convert through their string form. *)
Definition isNaN (v : jsval) : bool :=
  match v with
  | JUndefined | JNaN | JFun _ => true
  | JNull | JBool _ | JNum _ | JInfinity _ => false
  | JStr s => isNaN_string s
  | JArr _ | JObj _ _ => isNaN_string (to_string v)
  end.

(** [a && b] *)
Definition js_and (a b : jsval) : jsval := if truthy a then b else a.

(** [{ ...v }]: the own properties of an object; a boolean, a number,
    [undefined] and [null] spread to nothing. *)
Definition spread (v : jsval) : list (string * jsval) :=
  match v with
  | JObj _ ps => ps
  | _ => []
  end.

(** *** Doubles

    A double, where conversions need more than the integers: [NaN], an
    infinity, or plus or minus [m * 2^e] with [m] below 2^53. *)
Inductive number : Type :=
| NNaN
| NInf (negative : bool)
| NFin (negative : bool) (m e : Z).

(** The double nearest to [N / D], for [N >= 0] and [D > 0]: the
    quotient is cut to 53 bits, rounded to the nearest, ties going to the
    even one; what exceeds the largest double is an infinity. *)
Definition round_ratio (neg : bool) (N D : Z) : number :=
  if N =? 0 then NFin neg 0 0
  else
    let quotient e := if 0 <=? e then N / (D * 2 ^ e) else (N * 2 ^ (- e)) / D in
    let e0 := Z.log2 N - Z.log2 D - 52 in
    let e1 :=
      if 2 ^ 53 <=? quotient e0 then e0 + 1
      else if quotient e0 <? 2 ^ 52 then e0 - 1
      else e0 in
    let e := Z.max e1 (- 1074) in
    let num := if 0 <=? e then N else N * 2 ^ (- e) in
    let den := if 0 <=? e then D * 2 ^ e else D in
    let q := num / den in
    let r := num mod den in
    let q' := if (den <? 2 * r) || ((den =? 2 * r) && Z.odd q) then q + 1 else q in
    if (971 <? e) || ((e =? 971) && (2 ^ 53 <=? q')) then NInf neg
    else NFin neg q' e.

(** The integer [N >= 0] with its sign, as the number JavaScript holds
    for it: itself below 2^53, and the nearest double from there on. *)
Definition number_of_integer (neg : bool) (N : Z) : jsval :=
  if N <? 2 ^ 53 then JNum (if neg then - N else N)
  else
    match round_ratio neg N 1 with
    | NFin _ m e => JNum (if neg then - (m * 2 ^ e) else m * 2 ^ e)
    | NInf _ => JInfinity neg
    | NNaN => JNaN
    end.

(** [parseInt(v)]: the integer that starts the string form of [v], after
    blanks and a sign, in base 16 after [0x] and 10 otherwise, as the
    double nearest to it; [NaN] when no digit is there. *)
Definition parseInt (v : jsval) : jsval :=
  let '(neg, s) := strip_sign (trim_start (to_string v)) in
  let '(radix, digits) :=
    match strip_any ["0x"; "0X"] s with
    | Some h => (16, h)
    | None => (10, s)
    end in
  match read_digits radix digits None with
  | (Some n, _) => number_of_integer neg n
  | (None, _) => JNaN
  end.

(** The value of a decimal literal: digits, an optional fraction, an
    optional exponent.  [M * 10^k] is far outside the doubles when [k]
    is beyond 400 either way of the length of [M]. *)
Definition decimal_value (neg : bool) (s : string) : number :=
  let '(d1, r1) := read_digits 10 s None in
  let '(d2, r2) :=
    match strip_prefix "." r1 with
    | Some r => read_digits 10 r (Some (default 0 d1))
    | None => (d1, r1)
    end in
  let fraction_digits :=
    match strip_prefix "." r1 with
    | Some r => Z.of_nat (String.length r) - Z.of_nat (String.length r2)
    | None => 0
    end in
  let exponent :=
    match strip_any ["e"; "E"] r2 with
    | Some x =>
        let '(eneg, xs) := strip_sign x in
        let ev := default 0 (read_digits 10 xs None).1 in
        if eneg then - ev else ev
    | None => 0
    end in
  let M := default 0 d2 in
  let k := exponent - fraction_digits in
  if M =? 0 then NFin neg 0 0
  else if 400 <? k then NInf neg
  else if k + Z.log2 M <? - 1500 then NFin neg 0 0
  else if 0 <=? k then round_ratio neg (M * 10 ^ k) 1
  else round_ratio neg M (10 ^ (- k)).

(** [Number(s)] for a string. *)
Definition string_to_number (s : string) : number :=
  if negb (is_numeric_string s) then NNaN
  else
    let t := trim s in
    if bool_decide (t = "") then NFin false 0 0
    else
      match strip_any ["0x"; "0X"] t, strip_any ["0o"; "0O"] t, strip_any ["0b"; "0B"] t with
      | Some h, _, _ => round_ratio false (default 0 (read_digits 16 h None).1) 1
      | _, Some o, _ => round_ratio false (default 0 (read_digits 8 o None).1) 1
      | _, _, Some b => round_ratio false (default 0 (read_digits 2 b None).1) 1
      | None, None, None =>
          let '(neg, u) := strip_sign t in
          if bool_decide (u = "Infinity") then NInf neg
          else decimal_value neg u
      end.

(** An integer brought into the 32-bit range, as [x | 0] does. *)
Definition wrap32 (n : Z) : Z := (n + 2 ^ 31) mod 2 ^ 32 - 2 ^ 31.

(** ToInt32 of a double: its integer part, wrapped; 0 for [NaN] and the
    infinities. *)
Definition number_to_int32 (x : number) : Z :=
  match x with
  | NFin neg m e =>
      let t := if 0 <=? e then m * 2 ^ e else m / 2 ^ (- e) in
      wrap32 (if neg then - t else t)
  | _ => 0
  end.

(** [v | 0]: ToInt32 of ToNumber. *)
Definition to_int32 (v : jsval) : Z :=
  match v with
  | JUndefined | JNaN | JNull | JFun _ | JInfinity _ => 0
  | JBool b => if b then 1 else 0
  | JNum n => wrap32 n
  | JStr s => number_to_int32 (string_to_number s)
  | JArr _ | JObj _ _ => number_to_int32 (string_to_number (to_string v))
  end.

End JS.

Export JS.

(** ** The Express objects, the process, and the external collaborators *)

Module Express.

(** How a statement completes: normally, or by throwing (for an [async]
    function: a rejected promise). *)
Inductive completion (A : Type) : Type :=
| Normal (a : A)
| Throw (v : jsval).
Arguments Normal {A} a.
Arguments Throw {A} v.

(** [req].  Header names are stored in lower case, route parameters are
    strings, the parsed query string keeps its key order. *)
Record request : Type := {
  method : string;
  path : string;
  url : string;
  originalUrl : string;
  ip : jsval;
  headers : gmap string string;
  params : gmap string string;
  query : list (string * jsval);
  body : jsval;
  user : jsval
}.

(** [res]: whether the headers have left, the status set for the reply,
    and the replies written: each with its status and the value given to
    [res.json]. *)
Record response : Type := {
  headersSent : bool;
  statusCode : jsval;
  sent : list (jsval * jsval)
}.

(** What the process and the modules outside this repository answer:
    [process.env], the clock (the [k]-th reading, as an ISO-8601 string),
    [process.uptime()], the trace [new Error] captures, express-validator,
    the data-access service and the file system. *)
Record externals : Type := {
  env : gmap string string;
  clock : nat → string;
  uptime : jsval;
  stack_trace : string;
  validationResult : request → completion (list jsval);
  getAllItems : jsval → completion jsval;
  getItemById : jsval → completion jsval;
  createItem : jsval → completion jsval;
  updateItem : jsval → jsval → completion jsval;
  deleteItem : jsval → completion jsval;
  fs_access : string → completion unit;
  fs_mkdir : string → completion unit
}.

(** The object an error middleware is handed: a primitive, or a
    reference to an object of the heap. *)
Definition loc := nat.
Inductive thrown : Type :=
| Prim (v : jsval)
| Ref (l : loc).

(** A piece of a [console] call: a template literal with its holes, or a
    value. *)
Inductive log_arg : Type :=
| Template (parts : list jsval)
| Value (v : jsval).

(** What leaves the function under study other than through [res]. *)
Inductive event : Type :=
| Call (fn : string) (args : list jsval)
| Next (err : option thrown).

Record state : Type := {
  st_ticks : nat;
  st_console : list (list log_arg);
  st_heap : gmap loc jsval;
  st_res : response;
  st_trace : list event
}.

Definition M (A : Type) : Type := state → completion A * state.

Definition ret {A} (a : A) : M A := λ st, (Normal a, st).
Definition throw {A} (v : jsval) : M A := λ st, (Throw v, st).
Definition bind {A B} (m : M A) (k : A → M B) : M B :=
  λ st, match m st with
        | (Normal a, st') => k a st'
        | (Throw v, st') => (Throw v, st')
        end.
(** [try { m } catch (error) { h error }] *)
Definition try_catch {A} (m : M A) (h : jsval → M A) : M A :=
  λ st, match m st with
        | (Normal a, st') => (Normal a, st')
        | (Throw v, st') => h v st'
        end.
Definition lift {A} (c : completion A) : M A := λ st, (c, st).

Declare Scope js_scope.
Delimit Scope js_scope with js.
Notation "'let!' x := m 'in' k" := (bind m (λ x, k))
  (at level 10, x name, m at level 100, k at level 200) : js_scope.
Notation "m ;;; k" := (bind m (λ _, k))
  (at level 100, right associativity) : js_scope.
Local Open Scope js_scope.

Definition with_res (f : response → response) : M unit :=
  λ st, (Normal tt,
         {| st_ticks := st_ticks st; st_console := st_console st;
            st_heap := st_heap st; st_res := f (st_res st);
            st_trace := st_trace st |}).

Definition emit (e : event) : M unit :=
  λ st, (Normal tt,
         {| st_ticks := st_ticks st; st_console := st_console st;
            st_heap := st_heap st; st_res := st_res st;
            st_trace := st_trace st ++ [e] |}).

(** [console.error(...)] and [console.log(...)] *)
Definition console_error (args : list log_arg) : M unit :=
  λ st, (Normal tt,
         {| st_ticks := st_ticks st; st_console := st_console st ++ [args];
            st_heap := st_heap st; st_res := st_res st;
            st_trace := st_trace st |}).

(** [new Date().toISOString()] *)
Definition now_iso (X : externals) : M jsval :=
  λ st, (Normal (JStr (clock X (st_ticks st))),
         {| st_ticks := S (st_ticks st); st_console := st_console st;
            st_heap := st_heap st; st_res := st_res st;
            st_trace := st_trace st |}).

(** The object behind an argument; a dangling reference reads as
    [undefined]. *)
Definition deref (h : gmap loc jsval) (t : thrown) : jsval :=
  match t with
  | Prim v => v
  | Ref l => default JUndefined (h !! l)
  end.

Definition load (t : thrown) : M jsval := λ st, (Normal (deref (st_heap st) t), st).

Definition fresh_loc (h : gmap loc jsval) : loc := fresh (dom h).

(** Allocation of a new object. *)
Definition alloc (o : jsval) : M loc :=
  λ st, let l := fresh_loc (st_heap st) in
        (Normal l,
         {| st_ticks := st_ticks st; st_console := st_console st;
            st_heap := <[l := o]> (st_heap st); st_res := st_res st;
            st_trace := st_trace st |}).

(** [l.k = v] *)
Definition store_prop (l : loc) (k : string) (v : jsval) : M unit :=
  λ st, (Normal tt,
         {| st_ticks := st_ticks st; st_console := st_console st;
            st_heap := alter (λ o, obj_set o k v) l (st_heap st);
            st_res := st_res st; st_trace := st_trace st |}).

(** The [TypeError] of a property read on [undefined] or [null]. *)
Definition type_error (v : jsval) (k : string) : jsval :=
  JObj (Some "TypeError")
    [("message", JStr ("Cannot read properties of " +:+ to_string v
                       +:+ " (reading '" +:+ k +:+ "')"))].

(** [v.k], which throws on [undefined] and [null]. *)
Definition read (v : jsval) (k : string) : M jsval :=
  match v with
  | JUndefined | JNull => throw (type_error v k)
  | _ => ret (get v k)
  end.

(** [v?.k] *)
Definition read_opt (v : jsval) (k : string) : jsval :=
  match v with
  | JUndefined | JNull => JUndefined
  | _ => get v k
  end.

(** A call of an external function: recorded, then its answer. *)
Definition call {A} (fn : string) (args : list jsval) (answer : completion A) : M A :=
  emit (Call fn args) ;;; lift answer.

(** [next()] and [next(err)]: the rest of the chain is not this
    program's. *)
Definition next (err : option thrown) : M unit := emit (Next err).

(** [res.status(code)] *)
Definition res_status (code : jsval) : M unit :=
  with_res (λ r, {| headersSent := headersSent r; statusCode := code; sent := sent r |}).

(** The error Node raises when a reply is written after the headers
    have left. *)
Definition headers_sent_error : jsval :=
  JObj (Some "Error")
    [("message", JStr "Cannot set headers after they are sent to the client");
     ("code", JStr "ERR_HTTP_HEADERS_SENT")].

(** The error Node raises when the status to write is not an integer
    from 100 to 999.  Its message ends with the status as [%s] formats
    it: the text of a number, a string or a boolean.  (An object is
    printed by inspection there; the program reads the message of no
    such error.) *)
Definition invalid_status_error (code : jsval) : jsval :=
  JObj (Some "RangeError")
    [("message", JStr ("Invalid status code: " +:+ to_string code));
     ("code", JStr "ERR_HTTP_INVALID_STATUS_CODE")].

(** [res.json(body)]: writes the reply with the status set so far.
    [res.status] of Express 4, the version whose router takes the
    server's path ['*'], stores what it is given; when the head is
    written Node converts the status with [| 0] and refuses a result
    outside 100..999, and nothing is written then. *)
Definition res_json (body : jsval) : M unit :=
  λ st,
    if headersSent (st_res st) then (Throw headers_sent_error, st)
    else
      let code := to_int32 (statusCode (st_res st)) in
      if (100 <=? code) && (code <=? 999)
      then with_res (λ r, {| headersSent := true; statusCode := JNum code;
                             sent := sent r ++ [(JNum code, body)] |}) st
      else (Throw (invalid_status_error (statusCode (st_res st))), st).

(** [req.get(name)]: header names are matched without case. *)
Definition lower (s : string) : string :=
  string_of_list_ascii
    (map (λ c, if (65 <=? code c) && (code c <=? 90)
               then ascii_of_nat (nat_of_ascii c + 32) else c)
       (list_ascii_of_string s)).

Definition req_get (req : request) (name : string) : jsval :=
  match headers req !! lower name with
  | Some v => JStr v
  | None => JUndefined
  end.

(** [res.headersSent] *)
Definition res_headersSent : M bool := λ st, (Normal (headersSent (st_res st)), st).

(** [process.env.K] *)
Definition env_get (X : externals) (k : string) : jsval :=
  match env X !! k with
  | Some v => JStr v
  | None => JUndefined
  end.

(** What [JSON.stringify] keeps of a value: in an object, properties whose
    value is [undefined] or a function are left out; in an array they
    become [null], as do [NaN] and the infinities anywhere.  The
    [message] and [stack] of an error object are not enumerable and are
    left out too. *)
Fixpoint json_wire (v : jsval) : jsval :=
  match v with
  | JArr l =>
      JArr (map (λ x, match x with
                      | JUndefined | JFun _ => JNull
                      | _ => json_wire x
                      end) l)
  | JObj cls ps =>
      JObj None
        ((fix go (ps : list (string * jsval)) : list (string * jsval) :=
            match ps with
            | [] => []
            | (k, x) :: r =>
                match x with
                | JUndefined | JFun _ => go r
                | _ =>
                    if bool_decide (is_Some cls)
                       && bool_decide (k ∈ ["message"; "stack"])
                    then go r
                    else (k, json_wire x) :: go r
                end
            end) ps)
  | JNaN | JInfinity _ => JNull
  | _ => v
  end.

End Express.
Export Express.
Local Open Scope js_scope.

(** ** [src/middleware/errorHandler.js] *)

Module ErrorHandler.

Definition messages : list (string * string) :=
  [ ("400", "Solicitud inválida");
    ("401", "No autorizado");
    ("403", "Acceso prohibido");
    ("404", "Recurso no encontrado");
    ("409", "Conflicto de datos");
    ("422", "Datos no procesables");
    ("500", "Error interno del servidor");
    ("503", "Servicio no disponible") ].

(** [messages[statusCode] || 'Error desconocido'] *)
Definition getErrorMessage (statusCode : jsval) : jsval :=
  js_or (index_literal messages statusCode) (JStr "Error desconocido").

(** [err.statusCode || err.status || 500] *)
Definition statusCodeOf (err : jsval) : jsval :=
  js_or (js_or (get err "statusCode") (get err "status")) (JNum 500).

(** Lines 28 to 64 of [errorHandler]: the reply object, built and then
    overridden by the name of the error.  [timestamp] is the clock
    reading taken for it. *)
Definition errorResponseOf (X : externals) (err : jsval) (req : request)
    (timestamp : jsval) : jsval :=
  let statusCode := statusCodeOf err in
  let statusMessage := js_or (get err "statusMessage") (getErrorMessage statusCode) in
  let errorResponse :=
    JObj None
      [ ("success", JBool false);
        ("timestamp", timestamp);
        ("path", JStr (path req));
        ("method", JStr (method req));
        ("error",
         JObj None
           ([ ("code", statusCode);
              ("message", js_or (get err "message") statusMessage) ]
            ++ spread (js_and (JBool (is_str (env_get X "NODE_ENV") "development"))
                         (JObj None [("stack", get err "stack")])))) ] in
  let errorResponse :=
    if is_str (get err "name") "ValidationError" then
      let r := obj_set2 errorResponse "error" "code" (JNum 400) in
      let r := obj_set2 r "error" "message" (JStr "Datos de entrada inválidos") in
      obj_set2 r "error" "details" (js_or (get err "details") (JArr []))
    else errorResponse in
  let errorResponse :=
    if is_str (get err "name") "CastError" then
      let r := obj_set2 errorResponse "error" "code" (JNum 400) in
      obj_set2 r "error" "message" (JStr "ID inválido")
    else errorResponse in
  let errorResponse :=
    if is_str (get err "name") "JsonWebTokenError" then
      let r := obj_set2 errorResponse "error" "code" (JNum 401) in
      obj_set2 r "error" "message" (JStr "Token inválido")
    else errorResponse in
  let errorResponse :=
    if is_str (get err "name") "TokenExpiredError" then
      let r := obj_set2 errorResponse "error" "code" (JNum 401) in
      obj_set2 r "error" "message" (JStr "Token expirado")
    else errorResponse in
  errorResponse.

(** The arguments of the [console.error] call of lines 18 to 25. *)
Definition logLine (err : jsval) (req : request) (logged_at message : jsval)
  : list log_arg :=
  [ Template [ JStr "["; logged_at; JStr "] "; JStr (method req); JStr " ";
               JStr (path req); JStr " - Error: "; message ];
    Value (JObj None
             [ ("stack", get err "stack");
               ("statusCode", statusCodeOf err);
               ("url", JStr (url req));
               ("method", JStr (method req));
               ("ip", ip req);
               ("userAgent", req_get req "User-Agent") ]) ].

(** [errorHandler(err, req, res, next)]: the log line, the reply object,
    and the reply, sent with [statusCode]. *)
Definition errorHandler (X : externals) (err : thrown) (req : request) : M unit :=
  let! e := load err in
  let! logged_at := now_iso X in
  let! message := read e "message" in
  console_error (logLine e req logged_at message) ;;;
  let statusCode := statusCodeOf e in
  let! timestamp := now_iso X in
  let errorResponse := errorResponseOf X e req timestamp in
  res_status statusCode ;;;
  res_json errorResponse.

(** [globalErrorHandler(err, req, res, next)] *)
Definition globalErrorHandler (X : externals) (err : thrown) (req : request) : M unit :=
  let! already := res_headersSent in
  if already : bool then next (Some err)
  else
    let! e := load err in
    if instanceof_Error e then errorHandler X err req
    else
      let! error :=
        alloc (JObj (Some "Error")
                 [ ("message", JStr "Error desconocido");
                   ("stack", JStr (stack_trace X)) ]) in
      store_prop error "statusCode" (JNum 500) ;;;
      errorHandler X (Ref error) req.

End ErrorHandler.

(** ** The validation middleware *)

Module Validation.

(** [validateRequest(req, res, next)] *)
Definition validateRequest (X : externals) (req : request) : M unit :=
  try_catch
    (let! errors := call "validationResult" [] (validationResult X req) in
     if negb (bool_decide (errors = [])) then
       res_status (JNum 400) ;;;
       res_json (JObj None
                   [ ("success", JBool false);
                     ("message", JStr "Validation failed");
                     ("errors", JArr errors) ])
     else next None)
    (λ error,
       res_status (JNum 500) ;;;
       let! message := read error "message" in
       res_json (JObj None
                   [ ("success", JBool false);
                     ("message", JStr "Internal server error during validation");
                     ("error", message) ])).

End Validation.

(** ** The item controller *)

Module Controller.

(** The [catch] block the five handlers share, up to the name logged. *)
Definition internal_error (who : string) (error : jsval) : M unit :=
  console_error [Value (JStr ("Error in " +:+ who +:+ ":")); Value error] ;;;
  res_status (JNum 500) ;;;
  let! message := read error "message" in
  res_json (JObj None
              [ ("success", JBool false);
                ("message", JStr "Internal server error");
                ("error", message) ]).

(** [const { k = dflt } = req.query] *)
Definition query_or (req : request) (k : string) (dflt : jsval) : jsval :=
  match lookup_prop k (query req) with
  | Some JUndefined | None => dflt
  | Some v => v
  end.

(** [const { id } = req.params] *)
Definition param (req : request) (k : string) : jsval :=
  match params req !! k with
  | Some s => JStr s
  | None => JUndefined
  end.

(** [const { name, description, category } = req.body], which throws on
    a body that is [undefined] or [null]. *)
Definition destructure_body (req : request) : M (jsval * jsval * jsval) :=
  match body req with
  | JUndefined | JNull =>
      throw (JObj (Some "TypeError")
               [("message",
                 JStr ("Cannot destructure property 'name' of 'req.body' as it is "
                       +:+ to_string (body req) +:+ "."))])
  | b => ret (get b "name", get b "description", get b "category")
  end.

Definition invalid_id : M unit :=
  res_status (JNum 400) ;;;
  res_json (JObj None
              [ ("success", JBool false);
                ("message", JStr "Invalid ID parameter") ]).

Definition not_found : M unit :=
  res_status (JNum 404) ;;;
  res_json (JObj None
              [ ("success", JBool false);
                ("message", JStr "Item not found") ]).

Definition validation_failed (errors : list jsval) : M unit :=
  res_status (JNum 400) ;;;
  res_json (JObj None
              [ ("success", JBool false);
                ("message", JStr "Validation failed");
                ("errors", JArr errors) ]).

Definition getAllItemsHandler (X : externals) (req : request) : M unit :=
  try_catch
    (let page := query_or req "page" (JNum 1) in
     let limit := query_or req "limit" (JNum 10) in
     let filters :=
       filter (λ p, p.1 ≠ "page" ∧ p.1 ≠ "limit") (query req) in
     let arg :=
       JObj None
         [ ("page", parseInt page);
           ("limit", parseInt limit);
           ("filters", JObj None filters) ] in
     let! result := call "getAllItems" [arg] (getAllItems X arg) in
     res_status (JNum 200) ;;;
     let! items := read result "items" in
     let! pagination := read result "pagination" in
     res_json (JObj None
                 [ ("success", JBool true);
                   ("data", items);
                   ("pagination", pagination);
                   ("message", JStr "Items retrieved successfully") ]))
    (internal_error "getAllItemsHandler").

Definition getItemByIdHandler (X : externals) (req : request) : M unit :=
  try_catch
    (let id := param req "id" in
     if negb (truthy id) || isNaN id then invalid_id
     else
       let! item := call "getItemById" [id] (getItemById X id) in
       if negb (truthy item) then not_found
       else
         res_status (JNum 200) ;;;
         res_json (JObj None
                     [ ("success", JBool true);
                       ("data", item);
                       ("message", JStr "Item retrieved successfully") ]))
    (internal_error "getItemByIdHandler").

Definition createItemHandler (X : externals) (req : request) : M unit :=
  try_catch
    (let! errors := call "validationResult" [] (validationResult X req) in
     if negb (bool_decide (errors = [])) then validation_failed errors
     else
       let! fields := destructure_body req in
       let '(name, description, category) := fields in
       let arg :=
         JObj None
           [ ("name", name);
             ("description", description);
             ("category", category);
             ("createdBy", js_or (read_opt (user req) "id") JNull) ] in
       let! newItem := call "createItem" [arg] (createItem X arg) in
       res_status (JNum 201) ;;;
       res_json (JObj None
                   [ ("success", JBool true);
                     ("data", newItem);
                     ("message", JStr "Item created successfully") ]))
    (internal_error "createItemHandler").

Definition updateItemHandler (X : externals) (req : request) : M unit :=
  try_catch
    (let id := param req "id" in
     if negb (truthy id) || isNaN id then invalid_id
     else
       let! errors := call "validationResult" [] (validationResult X req) in
       if negb (bool_decide (errors = [])) then validation_failed errors
       else
         let! fields := destructure_body req in
         let '(name, description, category) := fields in
         let arg :=
           JObj None
             [ ("name", name);
               ("description", description);
               ("category", category);
               ("updatedBy", js_or (read_opt (user req) "id") JNull) ] in
         let! updatedItem := call "updateItem" [id; arg] (updateItem X id arg) in
         if negb (truthy updatedItem) then not_found
         else
           res_status (JNum 200) ;;;
           res_json (JObj None
                       [ ("success", JBool true);
                         ("data", updatedItem);
                         ("message", JStr "Item updated successfully") ]))
    (internal_error "updateItemHandler").

Definition deleteItemHandler (X : externals) (req : request) : M unit :=
  try_catch
    (let id := param req "id" in
     if negb (truthy id) || isNaN id then invalid_id
     else
       let! deleted := call "deleteItem" [id] (deleteItem X id) in
       if negb (truthy deleted) then not_found
       else
         res_status (JNum 200) ;;;
         res_json (JObj None
                     [ ("success", JBool true);
                       ("message", JStr "Item deleted successfully") ]))
    (internal_error "deleteItemHandler").

End Controller.

(** ** The server's own routes ([Server.initializeRoutes]) *)

Module Server.

(** [GET /health] *)
Definition health (X : externals) (req : request) : M unit :=
  res_status (JNum 200) ;;;
  let! timestamp := now_iso X in
  res_json (JObj None
              [ ("status", JStr "OK");
                ("timestamp", timestamp);
                ("uptime", uptime X) ]).

(** The handler of every other URL. *)
Definition notFound (X : externals) (req : request) : M unit :=
  res_status (JNum 404) ;;;
  res_json (JObj None
              [ ("error", JStr "Ruta no encontrada");
                ("path", JStr (originalUrl req)) ]).

End Server.

(** ** [src/routes/index.js] *)

Module Routes.

Definition failed (label logged : string) (error : jsval) : M unit :=
  console_error [Value (JStr logged); Value error] ;;;
  res_status (JNum 500) ;;;
  let! message := read error "message" in
  res_json (JObj None [ ("error", JStr label); ("message", message) ]).

(** [GET /] *)
Definition root (X : externals) (req : request) : M unit :=
  try_catch
    (res_status (JNum 200) ;;;
     let! timestamp := now_iso X in
     res_json (JObj None
                 [ ("message", JStr "Bienvenido a la API");
                   ("timestamp", timestamp) ]))
    (failed "Error interno del servidor" "Error en ruta principal:").

(** [GET /health] of the router *)
Definition health (X : externals) (req : request) : M unit :=
  try_catch
    (res_status (JNum 200) ;;;
     let! timestamp := now_iso X in
     res_json (JObj None
                 [ ("status", JStr "OK");
                   ("timestamp", timestamp) ]))
    (failed "Error interno del servidor" "Error en ruta de salud:").

(** [GET /error] *)
Definition error (X : externals) (req : request) : M unit :=
  try_catch
    (throw (JObj (Some "Error")
              [ ("message", JStr "Error de prueba intencional");
                ("stack", JStr (stack_trace X)) ]))
    (failed "Error de prueba" "Error intencional lanzado:").

End Routes.

(** ** The configuration module *)

Module Config.

Definition requiredVars : list string :=
  [ "NODE_ENV"; "PORT"; "DATABASE_URL"; "JWT_SECRET" ].

(** [env[varName]] *)
Definition env_lookup (env : gmap string string) (k : string) : jsval :=
  match env !! k with
  | Some v => JStr v
  | None => JUndefined
  end.

(** [a.join(', ')] *)
Fixpoint join_comma (l : list string) : string :=
  match l with
  | [] => ""
  | [x] => x
  | x :: r => x +:+ ", " +:+ join_comma r
  end.

Definition missingVars (env : gmap string string) : list string :=
  filter (λ varName, negb (truthy (env_lookup env varName)) = true) requiredVars.

(** [validateEnv(env)] *)
Definition validateEnv (env : gmap string string) : completion unit :=
  if (0 <? Z.of_nat (length (missingVars env))) then
    Throw (JObj (Some "Error")
             [("message",
               JStr ("Missing required environment variables: "
                     +:+ join_comma (missingVars env)))])
  else Normal tt.

(** [getConfig()] *)
Definition getConfig (X : externals) : M jsval :=
  try_catch
    (lift (validateEnv (env X)) ;;;
     let uploadPath := js_or (env_get X "UPLOAD_PATH") (JStr "./uploads") in
     let config :=
       JObj None
         [ ("env", js_or (env_get X "NODE_ENV") (JStr "development"));
           ("port", js_or (parseInt (env_get X "PORT")) (JNum 3000));
           ("host", js_or (env_get X "HOST") (JStr "localhost"));
           ("databaseUrl", env_get X "DATABASE_URL");
           ("jwtSecret", env_get X "JWT_SECRET");
           ("jwtExpiration", js_or (parseInt (env_get X "JWT_EXPIRATION")) (JNum 3600));
           ("redisUrl", js_or (env_get X "REDIS_URL") JNull);
           ("logLevel", js_or (env_get X "LOG_LEVEL") (JStr "info"));
           ("enableCors", JBool (is_str (env_get X "ENABLE_CORS") "true"));
           ("uploadPath", uploadPath);
           ("maxFileSize", js_or (parseInt (env_get X "MAX_FILE_SIZE")) (JNum 10485760)) ] in
     (if truthy (get config "uploadPath") then
        try_catch
          (call "fs.access" [uploadPath] (fs_access X (to_string uploadPath)))
          (λ _, call "fs.mkdir" [uploadPath; JObj None [("recursive", JBool true)]]
                  (fs_mkdir X (to_string uploadPath)))
      else ret tt) ;;;
     ret config)
    (λ error,
       console_error [Value (JStr "Error loading configuration:"); Value error] ;;;
       throw (JObj (Some "Error")
                [("message", JStr "Failed to load application configuration")])).

End Config.

(** ** Vocabulary of the specification *)

Module Spec.

(** The response object Express creates for a request. *)
Definition fresh_response : response :=
  {| headersSent := false; statusCode := JNum 200; sent := [] |}.

(** The replies written between two states. *)
Definition replies_since (before after : state) : list (jsval * jsval) :=
  drop (length (sent (st_res before))) (sent (st_res after)).

(** The replies a computation writes when run from [st]. *)
Definition replies_of {A} (m : M A) (st : state) : list (jsval * jsval) :=
  replies_since st (m st).2.

(** What the specification calls the ClassifiedError of a reply: the
    status sent, and the code, message and details of the envelope. *)
Definition classified (reply : jsval * jsval) : jsval * jsval * jsval * jsval :=
  let error := get reply.2 "error" in
  (reply.1, get error "code", get error "message", get error "details").

(** A status Node accepts as it is: an integer from 100 to 999. *)
Definition http_status (v : jsval) : bool :=
  match v with
  | JNum n => (100 <=? n) && (n <=? 999)
  | _ => false
  end.

(** [undefined] or [null] *)
Definition nullish (v : jsval) : bool :=
  match v with
  | JUndefined | JNull => true
  | _ => false
  end.

(** The names [errorHandler] overrides the envelope for. *)
Definition recognized_kind (name : jsval) : bool :=
  is_str name "ValidationError" || is_str name "CastError"
  || is_str name "JsonWebTokenError" || is_str name "TokenExpiredError".

(** The status codes of the table of [getErrorMessage]. *)
Definition table_codes : list Z := [400; 401; 403; 404; 409; 422; 500; 503].


(** A string that starts as the decimal form of an integer does. *)
Definition starts_like_number (s : string) : bool :=
  match s with
  | String c _ => bool_decide (c ∈ list_ascii_of_string "-0123456789")
  | EmptyString => false
  end.

(** What [JSON.stringify] keeps of a property value. *)
Definition wire_keeps (v : jsval) : bool :=
  match v with
  | JUndefined | JFun _ => false
  | _ => true
  end.

(** A plain object. *)
Definition plain_obj (v : jsval) : bool :=
  match v with
  | JObj None _ => true
  | _ => false
  end.

(** The properties [JSON.stringify] writes for an object. *)
Definition wire_props (cls : option string) (ps : list (string * jsval))
  : list (string * jsval) :=
  match json_wire (JObj cls ps) with
  | JObj _ qs => qs
  | _ => []
  end.

(** Every reply [m] writes, from any state, has a body that satisfies
    [P]; and [m] only ever adds replies. *)
Definition sends {A} (P : jsval → bool) (m : M A) : Prop :=
  ∀ st, ∃ l,
    sent (st_res (m st).2) = sent (st_res st) ++ l
    ∧ Forall (λ r, P r.2 = true) l.

(** The state [globalErrorHandler] leaves on a value that is not an
    error: the substitute error is in the heap. *)
Definition substitute_error (X : externals) : jsval :=
  JObj (Some "Error")
    [ ("message", JStr "Error desconocido");
      ("stack", JStr (stack_trace X));
      ("statusCode", JNum 500) ].

(** The two envelope shapes, as far as the invariant of the data model
    goes: [success] is there and is a boolean. *)
Definition has_success (body : jsval) : bool :=
  has_key body "success" && is_boolean (get body "success").

(** [data] and [error] are not both there. *)
Definition not_both (body : jsval) : bool :=
  negb (has_key body "data" && has_key body "error").

(** The functions of the program that write replies. *)
Inductive responder : Type :=
| GetAllItems | GetItemById | CreateItem | UpdateItem | DeleteItem
| ValidateRequest
| ErrorHandler (err : thrown)
| GlobalErrorHandler (err : thrown)
| ServerHealth | ServerNotFound
| RouterRoot | RouterHealth | RouterError.

Definition respond (X : externals) (r : responder) (req : request) : M unit :=
  match r with
  | GetAllItems => Controller.getAllItemsHandler X req
  | GetItemById => Controller.getItemByIdHandler X req
  | CreateItem => Controller.createItemHandler X req
  | UpdateItem => Controller.updateItemHandler X req
  | DeleteItem => Controller.deleteItemHandler X req
  | ValidateRequest => Validation.validateRequest X req
  | ErrorHandler err => ErrorHandler.errorHandler X err req
  | GlobalErrorHandler err => ErrorHandler.globalErrorHandler X err req
  | ServerHealth => Server.health X req
  | ServerNotFound => Server.notFound X req
  | RouterRoot => Routes.root X req
  | RouterHealth => Routes.health X req
  | RouterError => Routes.error X req
  end.

(** The responders whose replies carry the [success] flag. *)
Definition enveloped (r : responder) : bool :=
  match r with
  | ServerHealth | ServerNotFound | RouterRoot | RouterHealth | RouterError => false
  | _ => true
  end.

(** One of the required variables is missing or empty. *)
Definition some_required_missing (env : gmap string string) : Prop :=
  ∃ k, k ∈ Config.requiredVars ∧ (env !! k = None ∨ env !! k = Some "").

(** The upload directory of the configuration. *)
Definition upload_path (X : externals) : string :=
  to_string (js_or (env_get X "UPLOAD_PATH") (JStr "./uploads")).

Definition rejects {A} (c : completion A) : Prop :=
  match c with
  | Throw _ => True
  | Normal _ => False
  end.

(** *** Sample data *)

Definition sample_externals (e : gmap string string) : externals :=
  {| env := e;
     clock := λ k, "2024-01-01T00:00:0" +:+ pretty k +:+ ".000Z";
     uptime := JNum 5;
     stack_trace := "Error: Error desconocido at globalErrorHandler";
     validationResult := λ _, Normal [];
     getAllItems := λ _, Normal (JObj None [("items", JArr []); ("pagination", JObj None [])]);
     getItemById := λ _, Normal JNull;
     createItem := λ _, Normal (JObj None []);
     updateItem := λ _ _, Normal JNull;
     deleteItem := λ _, Normal (JBool false);
     fs_access := λ _, Normal tt;
     fs_mkdir := λ _, Normal tt |}.

Definition sample_request (id : option string) : request :=
  {| method := "GET";
     path := "/api/items";
     url := "/api/items";
     originalUrl := "/api/items";
     ip := JStr "::1";
     headers := {["user-agent" := "curl/8.0"]};
     params := match id with Some s => {["id" := s]} | None => ∅ end;
     query := [];
     body := JObj None [];
     user := JUndefined |}.

Definition sample_state (h : gmap loc jsval) (already_sent : bool) : state :=
  {| st_ticks := 0;
     st_console := [];
     st_heap := h;
     st_res := {| headersSent := already_sent; statusCode := JNum 200; sent := [] |};
     st_trace := [] |}.

(** A validation error as a validator library raises it: no status. *)
Definition validation_error : jsval :=
  JObj (Some "ValidationError")
    [ ("message", JStr "name is required");
      ("stack", JStr "ValidationError: name is required");
      ("details", JArr [JObj None [("field", JStr "name");
                                   ("message", JStr "name is required")]]) ].

(** The error [jsonwebtoken] raises for an expired token. *)
Definition token_expired_error : jsval :=
  JObj (Some "TokenExpiredError")
    [ ("message", JStr "jwt expired");
      ("stack", JStr "TokenExpiredError: jwt expired");
      ("expiredAt", JStr "2024-01-01T00:00:00.000Z") ].

(** [new Error()] *)
Definition bare_error : jsval :=
  JObj (Some "Error") [("stack", JStr "Error at handler")].

Definition production : gmap string string := {["NODE_ENV" := "production"]}.
Definition development : gmap string string := {["NODE_ENV" := "development"]}.
Definition testing : gmap string string := {["NODE_ENV" := "test"]}.

Definition complete_env : gmap string string :=
  list_to_map
    [ ("NODE_ENV", "production"); ("PORT", "8080");
      ("DATABASE_URL", "mongodb://db/app"); ("JWT_SECRET", "s3cret") ].

(** A file system on which the upload directory can neither be reached
    nor created. *)
Definition read_only_fs (X : externals) : externals :=
  {| env := env X; clock := clock X; uptime := uptime X;
     stack_trace := stack_trace X; validationResult := validationResult X;
     getAllItems := getAllItems X; getItemById := getItemById X;
     createItem := createItem X; updateItem := updateItem X;
     deleteItem := deleteItem X;
     fs_access := λ _, Throw (JObj (Some "Error") [("code", JStr "ENOENT")]);
     fs_mkdir := λ _, Throw (JObj (Some "Error") [("code", JStr "EACCES")]) |}.

End Spec.

(** ** The set-up of the server ([Server], constructor and
    [initializeMiddleware]) *)

Module ServerSetup.

(** [s.split(sep)] for a separator of one character. *)
Fixpoint split_on (sep : ascii) (s : string) : list string :=
  match s with
  | EmptyString => [EmptyString]
  | String c r =>
      if bool_decide (c = sep) then EmptyString :: split_on sep r
      else
        match split_on sep r with
        | piece :: pieces => String c piece :: pieces
        | [] => [String c EmptyString]
        end
  end.

(** [process.env.ALLOWED_ORIGINS?.split(',')] *)
Definition splitAllowedOrigins (X : externals) : jsval :=
  match env X !! "ALLOWED_ORIGINS" with
  | Some s => JArr (JStr <$> split_on "," s)
  | None => JUndefined
  end.

(** The [origin] option given to [cors]:
    [process.env.ALLOWED_ORIGINS?.split(',') || ['http://localhost:3000']] *)
Definition corsOrigin (X : externals) : jsval :=
  js_or (splitAllowedOrigins X) (JArr [JStr "http://localhost:3000"]).

(** [this.port = process.env.PORT || 3000] *)
Definition port (X : externals) : jsval :=
  js_or (env_get X "PORT") (JNum 3000).

End ServerSetup.

(** ** Further vocabulary *)

Module Behaviour.
Import Spec.

(** [a.join(',')] *)
Fixpoint join_with (sep : string) (l : list string) : string :=
  match l with
  | [] => ""
  | [x] => x
  | x :: r => x +:+ sep +:+ join_with sep r
  end.

(** How often a character occurs in a string. *)
Fixpoint occurrences (c : ascii) (s : string) : nat :=
  match s with
  | EmptyString => O
  | String a r => (if bool_decide (a = c) then 1 else 0)%nat + occurrences c r
  end.

(** A computation that respects the one-reply discipline of a response:
    on a response whose headers have left it writes nothing, and
    otherwise it writes nothing or exactly one reply, after which the
    headers have left. *)
Definition one_reply {A} (m : M A) : Prop :=
  ∀ st,
    (headersSent (st_res st) = true →
     sent (st_res (m st).2) = sent (st_res st)
     ∧ headersSent (st_res (m st).2) = true)
    ∧ (headersSent (st_res st) = false →
       (sent (st_res (m st).2) = sent (st_res st)
        ∧ headersSent (st_res (m st).2) = false)
       ∨ (∃ r, sent (st_res (m st).2) = sent (st_res st) ++ [r]
               ∧ headersSent (st_res (m st).2) = true)).

(** The external calls and [next] calls made between two states. *)
Definition trace_since (before after : state) : list event :=
  drop (length (st_trace before)) (st_trace after).

Definition trace_of {A} (m : M A) (st : state) : list event :=
  trace_since st (m st).2.

(** The console lines written between two states. *)
Definition logged_of {A} (m : M A) (st : state) : list (list log_arg) :=
  drop (length (st_console st)) (st_console (m st).2).

(** An [id] route parameter that passes the guard [!id || isNaN(id)]. *)
Definition valid_id (req : request) (s : string) : Prop :=
  params req !! "id" = Some s ∧ s ≠ "" ∧ isNaN_string s = false.



(** *** Sample data *)

(** A request for the item [id] with a JSON body. *)
Definition item_request (id : option string) (b : jsval) (q : list (string * jsval))
  : request :=
  {| method := "POST";
     path := "/api/items";
     url := "/api/items";
     originalUrl := "/api/items";
     ip := JStr "::1";
     headers := ∅;
     params := match id with Some s => {["id" := s]} | None => ∅ end;
     query := q;
     body := b;
     user := JObj None [("id", JNum 7)] |}.

Definition sample_item : jsval :=
  JObj None [("id", JNum 42); ("name", JStr "Gaudi")].

(** The sample collaborators, with an item service that knows one
    item, and a validator that reports [errors]. *)
Definition stocked (e : gmap string string) (errors : list jsval) : externals :=
  {| env := e;
     clock := clock (sample_externals e);
     uptime := JNum 5;
     stack_trace := stack_trace (sample_externals e);
     validationResult := λ _, Normal errors;
     getAllItems := λ _, Normal (JObj None [("items", JArr [sample_item]);
                                            ("pagination", JObj None [("page", JNum 1)])]);
     getItemById := λ _, Normal sample_item;
     createItem := λ _, Normal sample_item;
     updateItem := λ _ _, Normal sample_item;
     deleteItem := λ _, Normal (JBool true);
     fs_access := λ _, Normal tt;
     fs_mkdir := λ _, Normal tt |}.

(** Collaborators whose every call fails with [v]. *)
Definition failing (v : jsval) : externals :=
  {| env := ∅;
     clock := clock (sample_externals ∅);
     uptime := JNum 5;
     stack_trace := stack_trace (sample_externals ∅);
     validationResult := λ _, Throw v;
     getAllItems := λ _, Throw v;
     getItemById := λ _, Throw v;
     createItem := λ _, Throw v;
     updateItem := λ _ _, Throw v;
     deleteItem := λ _, Throw v;
     fs_access := λ _, Throw v;
     fs_mkdir := λ _, Throw v |}.


Definition database_down : jsval :=
  JObj (Some "Error") [("message", JStr "connection refused")].

Definition name_required : jsval :=
  JObj None [("field", JStr "name"); ("message", JStr "name is required")].

End Behaviour.
Import ErrorHandler Spec.

(** * Properties *)

(** ** The run of [errorHandler] *)

Lemma wrap32_small (n : Z) : - 2 ^ 31 <= n < 2 ^ 31 → wrap32 n = n.
Proof. intros Hn. unfold wrap32. rewrite Z.mod_small; lia. Qed.

Lemma http_status_to_int32 v :
  http_status v = true →
  JNum (to_int32 v) = v
  ∧ (100 <=? to_int32 v) && (to_int32 v <=? 999) = true.
Proof.
  destruct v as [| | |n| | | | | |]; try discriminate. cbn [http_status to_int32].
  intros Hn. assert (Hr : 100 <= n <= 999) by lia.
  rewrite wrap32_small by lia. by rewrite Hn.
Qed.

(** [res.json] on a response whose headers have not left and whose
    status is an integer from 100 to 999. *)
Lemma res_json_run body st :
  headersSent (st_res st) = false →
  http_status (statusCode (st_res st)) = true →
  res_json body st
  = (Normal tt,
     {| st_ticks := st_ticks st;
        st_console := st_console st;
        st_heap := st_heap st;
        st_res :=
          {| headersSent := true;
             statusCode := statusCode (st_res st);
             sent := sent (st_res st) ++ [(statusCode (st_res st), body)] |};
        st_trace := st_trace st |}).
Proof.
  intros Hs Hv. unfold res_json, with_res. rewrite Hs.
  destruct (http_status_to_int32 _ Hv) as [Hcode Hrange].
  cbv zeta. by rewrite Hrange, Hcode.
Qed.

(** [res.json] when the status is refused. *)
Lemma res_json_refused body st :
  headersSent (st_res st) = false →
  (100 <=? to_int32 (statusCode (st_res st)))
  && (to_int32 (statusCode (st_res st)) <=? 999) = false →
  res_json body st = (Throw (invalid_status_error (statusCode (st_res st))), st).
Proof. intros Hs Hv. unfold res_json. cbv zeta. by rewrite Hs, Hv. Qed.

Lemma errorHandler_run X err req st :
  nullish (deref (st_heap st) err) = false →
  headersSent (st_res st) = false →
  http_status (statusCodeOf (deref (st_heap st) err)) = true →
  errorHandler X err req st =
    (Normal tt,
     {| st_ticks := S (S (st_ticks st));
        st_console :=
          st_console st
          ++ [logLine (deref (st_heap st) err) req
                (JStr (clock X (st_ticks st)))
                (get (deref (st_heap st) err) "message")];
        st_heap := st_heap st;
        st_res :=
          {| headersSent := true;
             statusCode := statusCodeOf (deref (st_heap st) err);
             sent :=
               sent (st_res st)
               ++ [(statusCodeOf (deref (st_heap st) err),
                    errorResponseOf X (deref (st_heap st) err) req
                      (JStr (clock X (S (st_ticks st)))))] |};
        st_trace := st_trace st |}).
Proof.
  intros Hn Hs Hv.
  unfold errorHandler, bind, load, now_iso, console_error, res_status,
    with_res, ret. cbn.
  destruct (deref (st_heap st) err) eqn:He; cbn in Hn; try discriminate; cbn;
    by rewrite res_json_run.
Qed.

Lemma replies_of_errorHandler X err req st :
  nullish (deref (st_heap st) err) = false →
  headersSent (st_res st) = false →
  http_status (statusCodeOf (deref (st_heap st) err)) = true →
  replies_of (errorHandler X err req) st =
    [(statusCodeOf (deref (st_heap st) err),
      errorResponseOf X (deref (st_heap st) err) req
        (JStr (clock X (S (st_ticks st)))))].
Proof.
  intros Hn Hs Hv. unfold replies_of, replies_since.
  rewrite errorHandler_run by done. simpl. apply drop_app_length.
Qed.

(** ** Validation errors (C1) *)

(** C1. The claim asks for HTTP status 400 for every error named
    [ValidationError].  On a validation error that carries no status of
    its own, [errorHandler] writes the code 400, the fixed message and
    the details into the envelope, but sends the reply with status 500:
    the overrides change [errorResponse.error.code], and [res.status] is
    given the [statusCode] computed before them. *)
Theorem validation_error_is_sent_with_status_500 :
  ∃ body,
    replies_of
      (errorHandler (sample_externals production) (Ref 0%nat) (sample_request None))
      (sample_state {[0%nat := validation_error]} false)
    = [(JNum 500, body)]
    ∧ get (get body "error") "code" = JNum 400
    ∧ get (get body "error") "message" = JStr "Datos de entrada inválidos"
    ∧ get (get body "error") "details" = get validation_error "details".
Proof.
  eexists. split; [vm_compute; reflexivity|].
  repeat split; vm_compute; reflexivity.
Qed.

(** ** Expired tokens (C2) *)

(** C2. The claim asks for HTTP status 401 for every error named
    [TokenExpiredError].  On the error [jsonwebtoken] raises, which
    carries no status, [errorHandler] writes code 401 and the fixed
    message into the envelope, whatever the error's own message, but
    sends the reply with status 500, for the reason given at C1. *)
Theorem expired_token_is_sent_with_status_500 :
  ∃ body,
    replies_of
      (errorHandler (sample_externals production) (Ref 0%nat) (sample_request None))
      (sample_state {[0%nat := token_expired_error]} false)
    = [(JNum 500, body)]
    ∧ get (get body "error") "code" = JNum 401
    ∧ get (get body "error") "message" = JStr "Token expirado".
Proof.
  eexists. split; [vm_compute; reflexivity|].
  split; vm_compute; reflexivity.
Qed.

(** What does hold for the two kinds, for every error and every request:
    the envelope carries the kind's code and message, and the reply goes
    out with [err.statusCode || err.status || 500]. *)
Lemma validation_envelope X e req ts :
  is_str (get e "name") "ValidationError" = true →
  get (get (errorResponseOf X e req ts) "error") "code" = JNum 400
  ∧ get (get (errorResponseOf X e req ts) "error") "message"
    = JStr "Datos de entrada inválidos"
  ∧ get (get (errorResponseOf X e req ts) "error") "details"
    = js_or (get e "details") (JArr []).
Proof.
  intros Hname. unfold errorResponseOf. rewrite Hname.
  destruct (get e "name") as [| | | | |s| | | |]; try discriminate.
  apply bool_decide_eq_true in Hname as ->.
  destruct (is_str (env_get X "NODE_ENV") "development"); repeat split; reflexivity.
Qed.

Lemma expired_token_envelope X e req ts :
  is_str (get e "name") "TokenExpiredError" = true →
  get (get (errorResponseOf X e req ts) "error") "code" = JNum 401
  ∧ get (get (errorResponseOf X e req ts) "error") "message" = JStr "Token expirado".
Proof.
  intros Hname. unfold errorResponseOf. rewrite Hname.
  destruct (get e "name") as [| | | | |s| | | |]; try discriminate.
  apply bool_decide_eq_true in Hname as ->.
  destruct (is_str (env_get X "NODE_ENV") "development"); split; reflexivity.
Qed.

(** The validation middleware, for its part, answers 400 as soon as
    express-validator reports a failure, with one entry per failure. *)
Lemma validateRequest_answers_400 X req st errors :
  validationResult X req = Normal errors →
  errors ≠ [] →
  headersSent (st_res st) = false →
  replies_of (Validation.validateRequest X req) st
  = [(JNum 400,
      JObj None [ ("success", JBool false);
                  ("message", JStr "Validation failed");
                  ("errors", JArr errors) ])].
Proof.
  intros Hv Hne Hs.
  unfold replies_of, replies_since, Validation.validateRequest, try_catch, call,
    bind, emit, lift.
  rewrite Hv. cbn. rewrite bool_decide_eq_false_2 by done. cbn.
  unfold res_json. cbn. rewrite Hs. cbn. apply drop_app_length.
Qed.

(** ** Defaults (C3) *)

(** The decimal form of an integer starts with a digit or a minus. *)
Lemma pretty_N_go_starts x s :
  starts_like_number s = true → starts_like_number (pretty_N_go x s) = true.
Proof.
  revert s. induction (N.lt_wf_0 x) as [x _ IH]; intros s Hs.
  assert (x = 0 ∨ 0 < x)%N as [->|Hx] by lia.
  - by rewrite pretty_N_go_0.
  - rewrite pretty_N_go_step by done. apply IH.
    + by apply N.div_lt.
    + unfold pretty_N_char. by repeat case_match.
Qed.

Lemma pretty_Z_starts (n : Z) : starts_like_number (pretty n) = true.
Proof.
  destruct n as [|p|p]; [done| |done].
  unfold pretty, pretty_Z, pretty, pretty_positive, pretty, pretty_N.
  case_decide; [done|].
  rewrite pretty_N_go_step by lia. apply pretty_N_go_starts.
  unfold pretty_N_char. by repeat case_match.
Qed.

Lemma getErrorMessage_500 : getErrorMessage (JNum 500) = JStr "Error interno del servidor".
Proof. vm_compute. reflexivity. Qed.

Lemma getErrorMessage_outside_table (n : Z) :
  n ∉ table_codes → getErrorMessage (JNum n) = JStr "Error desconocido".
Proof.
  intros Hn. unfold getErrorMessage, index_literal. cbn [to_string].
  assert (Hkey : ∀ m : Z, m ∈ table_codes → pretty m ≠ pretty n).
  { intros m Hm Heq. apply (inj pretty) in Heq. by subst. }
  assert (Hs := pretty_Z_starts n).
  unfold messages. cbn [assoc].
  do 8 (rewrite bool_decide_eq_false_2;
        [| intros Hd; symmetry in Hd; revert Hd;
           first [ apply (Hkey 400) | apply (Hkey 401) | apply (Hkey 403)
                 | apply (Hkey 404) | apply (Hkey 409) | apply (Hkey 422)
                 | apply (Hkey 500) | apply (Hkey 503) ];
           unfold table_codes; set_solver ]).
  cbn [assoc].
  rewrite bool_decide_eq_false_2.
  2: { unfold object_prototype_members. intros Hin. 
       repeat (apply elem_of_cons in Hin as [Hin|Hin];
               [rewrite Hin in Hs; discriminate|]).
       by apply elem_of_nil in Hin. }
  rewrite bool_decide_eq_false_2.
  2: { intros Heq. rewrite Heq in Hs. discriminate. }
  reflexivity.
Qed.

(** C3, as the specification states it, fails on the text of the
    default: an error with no status, no kind and no message is answered
    with status 500, and the message of the envelope is the table's
    Spanish entry for 500, not the English one; and when such an error
    has a [statusMessage], that is the message, not the table's. *)
Lemma default_message_is_not_the_english_one :
  (∃ body,
     replies_of
       (errorHandler (sample_externals production) (Ref 0%nat) (sample_request None))
       (sample_state {[0%nat := bare_error]} false)
     = [(JNum 500, body)]
     ∧ get (get body "error") "message" = getErrorMessage (JNum 500)
     ∧ get (get body "error") "message" ≠ JStr "Internal Server Error"
     ∧ getErrorMessage (JNum 418) ≠ JStr "Unknown Error")
  ∧ (∃ body,
       replies_of
         (errorHandler (sample_externals production) (Ref 0%nat) (sample_request None))
         (sample_state
            {[0%nat := JObj (Some "Error") [("statusMessage", JStr "Teapot")]]} false)
       = [(JNum 500, body)]
       ∧ get (get body "error") "message" = JStr "Teapot"
       ∧ get (get body "error") "message" ≠ getErrorMessage (JNum 500)).
Proof.
  split.
  - eexists. split; [vm_compute; reflexivity|].
    repeat split; vm_compute; congruence.
  - eexists. split; [vm_compute; reflexivity|].
    repeat split; vm_compute; congruence.
Qed.

(** C3, amended.  On a response whose headers have not left, an error
    with no [statusCode], no [status] and a name that is none of the
    four is answered with HTTP status 500 and envelope code 500.  When
    it has no message either, the message of the envelope is
    [err.statusMessage] when that is set, and otherwise the entry of the
    table for 500.  The table maps 500 to ['Error interno del servidor']
    and every integer outside it to ['Error desconocido']. *)
Theorem default_status_and_message X err req st :
  nullish (deref (st_heap st) err) = false →
  headersSent (st_res st) = false →
  truthy (get (deref (st_heap st) err) "statusCode") = false →
  truthy (get (deref (st_heap st) err) "status") = false →
  recognized_kind (get (deref (st_heap st) err) "name") = false →
  ∃ body,
    replies_of (errorHandler X err req) st = [(JNum 500, body)]
    ∧ get (get body "error") "code" = JNum 500
    ∧ (truthy (get (deref (st_heap st) err) "message") = false →
       get (get body "error") "message"
       = js_or (get (deref (st_heap st) err) "statusMessage")
           (getErrorMessage (JNum 500)))
    ∧ getErrorMessage (JNum 500) = JStr "Error interno del servidor"
    ∧ ∀ n : Z, n ∉ table_codes → getErrorMessage (JNum n) = JStr "Error desconocido".
Proof.
  intros Hn Hs Hcode Hstatus Hkind.
  set (e := deref (st_heap st) err) in *.
  assert (Hsc : statusCodeOf e = JNum 500).
  { unfold statusCodeOf, js_or. by rewrite Hcode, Hstatus. }
  eexists. split.
  { rewrite replies_of_errorHandler by (try done; fold e; by rewrite Hsc).
    fold e. rewrite Hsc. reflexivity. }
  unfold recognized_kind in Hkind.
  apply orb_false_elim in Hkind as [Hkind Hk4].
  apply orb_false_elim in Hkind as [Hkind Hk3].
  apply orb_false_elim in Hkind as [Hk1 Hk2].
  unfold errorResponseOf. rewrite Hk1, Hk2, Hk3, Hk4, Hsc.
  split; [reflexivity|].
  split; [|split; [apply getErrorMessage_500 | apply getErrorMessage_outside_table]].
  intros Hmsg.
  change (get (get (JObj None _) "error") "message")
    with (js_or (get e "message")
            (js_or (get e "statusMessage") (getErrorMessage (JNum 500)))).
  unfold js_or at 1. by rewrite Hmsg.
Qed.

Lemma default_status_and_message_witness :
  ∃ body,
    replies_of
      (errorHandler (sample_externals production) (Ref 0%nat) (sample_request None))
      (sample_state {[0%nat := bare_error]} false)
    = [(JNum 500, body)].
Proof.
  destruct (default_status_and_message (sample_externals production) (Ref 0%nat)
              (sample_request None) (sample_state {[0%nat := bare_error]} false))
    as (body & Hbody & _); [reflexivity..|].
  exists body. exact Hbody.
Defined.

(** ** The stack field (C4) *)

Lemma json_wire_obj cls ps : json_wire (JObj cls ps) = JObj None (wire_props cls ps).
Proof. reflexivity. Qed.

Lemma wire_props_cons k x r :
  wire_props None ((k, x) :: r)
  = if wire_keeps x then (k, json_wire x) :: wire_props None r
    else wire_props None r.
Proof. destruct x; reflexivity. Qed.

Lemma wire_props_nil : wire_props None [] = [].
Proof. reflexivity. Qed.

Lemma lookup_set_prop_eq k v ps : lookup_prop k (set_prop k v ps) = Some v.
Proof.
  induction ps as [|[k' v'] ps IH]; cbn [set_prop lookup_prop].
  - by rewrite bool_decide_eq_true_2.
  - destruct (bool_decide (k = k')) eqn:Hk; cbn [lookup_prop].
    + by rewrite bool_decide_eq_true_2.
    + by rewrite Hk.
Qed.

Lemma lookup_set_prop_ne k k' v ps :
  k ≠ k' → lookup_prop k (set_prop k' v ps) = lookup_prop k ps.
Proof.
  intros Hne. induction ps as [|[k'' v''] ps IH]; cbn [set_prop lookup_prop].
  - by rewrite bool_decide_eq_false_2.
  - destruct (bool_decide (k' = k'')) eqn:Hk; cbn [lookup_prop].
    + apply bool_decide_eq_true in Hk as <-.
      by rewrite !bool_decide_eq_false_2.
    + by rewrite IH.
Qed.

Lemma plain_obj_set2 o k1 k2 v : plain_obj o = true → plain_obj (obj_set2 o k1 k2 v) = true.
Proof. by destruct o as [| | | | | | |[]| |]. Qed.

Lemma get_obj_set2 o k1 k2 v :
  plain_obj o = true → get (obj_set2 o k1 k2 v) k1 = obj_set (get o k1) k2 v.
Proof.
  destruct o as [| | | | | | |[c|] ps| |]; try discriminate. intros _.
  unfold obj_set2, obj_set at 1. cbn [get]. by rewrite lookup_set_prop_eq.
Qed.

Lemma has_key_obj_set2 o k1 k2 v :
  plain_obj o = true → has_key (obj_set2 o k1 k2 v) k1 = true.
Proof.
  destruct o as [| | | | | | |[c|] ps| |]; try discriminate. intros _.
  unfold obj_set2, obj_set at 1. cbn [has_key]. rewrite lookup_set_prop_eq.
  by apply bool_decide_eq_true_2.
Qed.

Lemma get_obj_set2_ne o k k1 k2 v :
  plain_obj o = true → k ≠ k1 → get (obj_set2 o k1 k2 v) k = get o k.
Proof.
  destruct o as [| | | | | | |[c|] ps| |]; try discriminate. intros _ Hne.
  unfold obj_set2, obj_set at 1. cbn [get]. by rewrite lookup_set_prop_ne.
Qed.

Lemma has_key_obj_set2_ne o k k1 k2 v :
  plain_obj o = true → k ≠ k1 → has_key (obj_set2 o k1 k2 v) k = has_key o k.
Proof.
  destruct o as [| | | | | | |[c|] ps| |]; try discriminate. intros _ Hne.
  unfold obj_set2, obj_set at 1. cbn [has_key]. by rewrite lookup_set_prop_ne.
Qed.

Lemma lookup_wire_props k x ps :
  lookup_prop k ps = Some x → wire_keeps x = true →
  lookup_prop k (wire_props None ps) = Some (json_wire x).
Proof.
  intros Hl Hx. induction ps as [|[k' x'] ps IH]; [done|].
  rewrite wire_props_cons. cbn [lookup_prop] in Hl.
  destruct (bool_decide (k = k')) eqn:Hk.
  - injection Hl as ->. rewrite Hx. cbn [lookup_prop]. by rewrite Hk.
  - destruct (wire_keeps x'); [cbn [lookup_prop]; rewrite Hk|]; by apply IH.
Qed.

Lemma get_json_wire o k :
  plain_obj o = true → has_key o k = true → wire_keeps (get o k) = true →
  get (json_wire o) k = json_wire (get o k).
Proof.
  destruct o as [| | | | | | |[c|] ps| |]; try discriminate. intros _.
  cbn [has_key get]. intros Hk%bool_decide_eq_true. destruct Hk as [x Hx].
  rewrite Hx. intros Hw. rewrite json_wire_obj. cbn [get].
  by rewrite (lookup_wire_props _ _ _ Hx Hw).
Qed.

(** The [error] part of the envelope, in each of its forms. *)
Lemma error_part X e req ts :
  get (errorResponseOf X e req ts) "error"
  = let part :=
      JObj None
        ([ ("code", statusCodeOf e);
           ("message",
            js_or (get e "message")
              (js_or (get e "statusMessage") (getErrorMessage (statusCodeOf e)))) ]
         ++ (if is_str (env_get X "NODE_ENV") "development"
             then [("stack", get e "stack")] else [])) in
    let part :=
      if is_str (get e "name") "ValidationError"
      then obj_set (obj_set (obj_set part "code" (JNum 400))
                      "message" (JStr "Datos de entrada inválidos"))
             "details" (js_or (get e "details") (JArr []))
      else part in
    let part :=
      if is_str (get e "name") "CastError"
      then obj_set (obj_set part "code" (JNum 400)) "message" (JStr "ID inválido")
      else part in
    let part :=
      if is_str (get e "name") "JsonWebTokenError"
      then obj_set (obj_set part "code" (JNum 401)) "message" (JStr "Token inválido")
      else part in
    if is_str (get e "name") "TokenExpiredError"
    then obj_set (obj_set part "code" (JNum 401)) "message" (JStr "Token expirado")
    else part.
Proof.
  unfold errorResponseOf.
  destruct (is_str (get e "name") "ValidationError"),
    (is_str (get e "name") "CastError"),
    (is_str (get e "name") "JsonWebTokenError"),
    (is_str (get e "name") "TokenExpiredError");
    cbv zeta;
    rewrite ?get_obj_set2 by (repeat apply plain_obj_set2; reflexivity);
    destruct (is_str (env_get X "NODE_ENV") "development"); reflexivity.
Qed.

Lemma envelope_is_plain X e req ts : plain_obj (errorResponseOf X e req ts) = true.
Proof.
  unfold errorResponseOf.
  destruct (is_str (get e "name") "ValidationError"),
    (is_str (get e "name") "CastError"),
    (is_str (get e "name") "JsonWebTokenError"),
    (is_str (get e "name") "TokenExpiredError");
    cbv zeta; repeat apply plain_obj_set2; reflexivity.
Qed.

Lemma envelope_has_error X e req ts : has_key (errorResponseOf X e req ts) "error" = true.
Proof.
  unfold errorResponseOf.
  destruct (is_str (get e "name") "ValidationError"),
    (is_str (get e "name") "CastError"),
    (is_str (get e "name") "JsonWebTokenError"),
    (is_str (get e "name") "TokenExpiredError");
    cbv zeta;
    first [ reflexivity
          | apply has_key_obj_set2; repeat apply plain_obj_set2; reflexivity ].
Qed.

Lemma plain_obj_set o k v : plain_obj o = true → plain_obj (obj_set o k v) = true.
Proof. by destruct o as [| | | | | | |[]| |]. Qed.

Lemma has_key_obj_set_ne o k k' v :
  k ≠ k' → has_key (obj_set o k' v) k = has_key o k.
Proof.
  intros Hne. destruct o; try reflexivity.
  cbn [obj_set has_key]. by rewrite lookup_set_prop_ne.
Qed.

Lemma lookup_wire_set_prop_ne k k' v ps :
  k ≠ k' →
  lookup_prop k (wire_props None (set_prop k' v ps))
  = lookup_prop k (wire_props None ps).
Proof.
  intros Hne. induction ps as [|[k'' v''] ps IH]; cbn [set_prop].
  - rewrite wire_props_cons, wire_props_nil.
    destruct (wire_keeps v); [|done].
    cbn [lookup_prop]. by rewrite bool_decide_eq_false_2.
  - destruct (bool_decide (k' = k'')) eqn:Hk.
    + apply bool_decide_eq_true in Hk as <-.
      rewrite !wire_props_cons.
      destruct (wire_keeps v), (wire_keeps v''); cbn [lookup_prop];
        by rewrite ?bool_decide_eq_false_2.
    + rewrite !wire_props_cons.
      destruct (wire_keeps v''); cbn [lookup_prop]; by rewrite IH.
Qed.

Lemma has_key_wire_obj_set_ne o k k' v :
  plain_obj o = true → k ≠ k' →
  has_key (json_wire (obj_set o k' v)) k = has_key (json_wire o) k.
Proof.
  destruct o as [| | | | | | |[c|] ps| |]; try discriminate. intros _ Hne.
  cbn [obj_set]. rewrite !json_wire_obj. cbn [has_key].
  by rewrite lookup_wire_set_prop_ne.
Qed.

(** The [stack] key of the envelope, as built and as written. *)
Lemma stack_key_of_envelope X e req ts :
  has_key (get (errorResponseOf X e req ts) "error") "stack"
  = is_str (env_get X "NODE_ENV") "development"
  ∧ has_key (get (json_wire (errorResponseOf X e req ts)) "error") "stack"
    = is_str (env_get X "NODE_ENV") "development" && wire_keeps (get e "stack").
Proof.
  rewrite get_json_wire;
    [| apply envelope_is_plain | apply envelope_has_error |];
    rewrite error_part; cbv zeta;
    destruct (is_str (get e "name") "ValidationError"),
      (is_str (get e "name") "CastError"),
      (is_str (get e "name") "JsonWebTokenError"),
      (is_str (get e "name") "TokenExpiredError");
    try reflexivity;
    rewrite ?has_key_obj_set_ne by done;
    rewrite ?has_key_wire_obj_set_ne by (try done; repeat apply plain_obj_set; reflexivity);
    destruct (is_str (env_get X "NODE_ENV") "development");
    (split; [reflexivity|]);
    cbn [app]; rewrite json_wire_obj, ?wire_props_cons, ?wire_props_nil;
    repeat match goal with
           | |- context [wire_keeps ?v] => destruct (wire_keeps v) eqn:?
           end;
    reflexivity.
Qed.

(** C4, as the specification states it, fails outside production: with
    [NODE_ENV=test] an error that carries a trace is answered without a
    [stack] field. *)
Lemma no_stack_in_test_mode :
  env_get (sample_externals testing) "NODE_ENV" ≠ JStr "production"
  ∧ get bare_error "stack" = JStr "Error at handler"
  ∧ ∃ body,
      replies_of
        (errorHandler (sample_externals testing) (Ref 0%nat) (sample_request None))
        (sample_state {[0%nat := bare_error]} false)
      = [(JNum 500, body)]
      ∧ has_key (get body "error") "stack" = false
      ∧ has_key (get (json_wire body) "error") "stack" = false.
Proof.
  split; [vm_compute; congruence|]. split; [reflexivity|].
  eexists. split; [vm_compute; reflexivity|].
  split; vm_compute; reflexivity.
Qed.

(** What [errorHandler] writes, whatever the error and the state: no
    reply, or one whose body is the envelope. *)
Lemma replies_of_errorHandler_cases X err req st :
  replies_of (errorHandler X err req) st = []
  ∨ ∃ status,
      replies_of (errorHandler X err req) st
      = [(status,
          errorResponseOf X (deref (st_heap st) err) req
            (JStr (clock X (S (st_ticks st)))))].
Proof.
  unfold replies_of, replies_since.
  unfold errorHandler, bind, load, now_iso, read, console_error, res_status,
    res_json, with_res, ret, throw; cbn.
  destruct (deref (st_heap st) err); cbn;
    try (left; apply drop_all);
    destruct (headersSent (st_res st)); cbn;
    try (left; apply drop_all);
    match goal with
    | |- context [(100 <=? ?c) && (?c <=? 999)] =>
        destruct ((100 <=? c) && (c <=? 999)); cbn
    end;
    first [ left; apply drop_all
          | right; eexists; apply drop_app_length ].
Qed.

(** C4, amended.  The envelope [errorHandler] builds has a [stack] key
    exactly when [NODE_ENV] is ['development']; as written by
    [JSON.stringify] it has the key exactly when, in addition,
    [err.stack] is set.  In production, and in every other mode, the key
    is absent from both.  Every reply of the handler carries that
    envelope, and a reply there is for an error with a status from 100
    to 999 on a response whose headers have not left. *)
Theorem stack_only_in_development X err req st :
  (∀ ts,
     has_key (get (errorResponseOf X (deref (st_heap st) err) req ts) "error") "stack"
     = is_str (env_get X "NODE_ENV") "development"
     ∧ has_key
         (get (json_wire (errorResponseOf X (deref (st_heap st) err) req ts)) "error")
         "stack"
       = is_str (env_get X "NODE_ENV") "development"
         && wire_keeps (get (deref (st_heap st) err) "stack"))
  ∧ (∀ status body,
       (status, body) ∈ replies_of (errorHandler X err req) st →
       has_key (get body "error") "stack"
       = is_str (env_get X "NODE_ENV") "development"
       ∧ has_key (get (json_wire body) "error") "stack"
         = is_str (env_get X "NODE_ENV") "development"
           && wire_keeps (get (deref (st_heap st) err) "stack"))
  ∧ (nullish (deref (st_heap st) err) = false →
     headersSent (st_res st) = false →
     http_status (statusCodeOf (deref (st_heap st) err)) = true →
     ∃ body,
       replies_of (errorHandler X err req) st
       = [(statusCodeOf (deref (st_heap st) err), body)]).
Proof.
  split; [intros ts; apply stack_key_of_envelope|].
  split.
  - intros status body Hin.
    destruct (replies_of_errorHandler_cases X err req st) as [Hnone|[status' Hone]].
    + rewrite Hnone in Hin. by apply elem_of_nil in Hin.
    + rewrite Hone in Hin. apply list_elem_of_singleton in Hin as [= -> ->].
      apply stack_key_of_envelope.
  - intros Hn Hs Hv. eexists. by apply replies_of_errorHandler.
Qed.

Lemma stack_only_in_development_witness :
  ∃ body,
    replies_of
      (errorHandler (sample_externals development) (Ref 0%nat) (sample_request None))
      (sample_state {[0%nat := bare_error]} false)
    = [(JNum 500, body)]
    ∧ has_key (get (json_wire body) "error") "stack" = true.
Proof.
  destruct (stack_only_in_development (sample_externals development) (Ref 0%nat)
              (sample_request None) (sample_state {[0%nat := bare_error]} false))
    as (_ & Hevery & Hreply).
  destruct Hreply as (body & Hreply); [reflexivity..|].
  exists body. split; [exact Hreply|].
  destruct (Hevery (JNum 500) body) as [_ Hwire].
  - rewrite Hreply. apply list_elem_of_here.
  - rewrite Hwire. reflexivity.
Defined.

(** ** Headers already sent (C5) *)

(** C5. When the headers of the response have already left,
    [globalErrorHandler] writes nothing: the response object is as it
    was, no reply is added, and the error is handed to [next]. *)
Theorem globalErrorHandler_forwards_when_sent X err req st :
  headersSent (st_res st) = true →
  globalErrorHandler X err req st
  = (Normal tt,
     {| st_ticks := st_ticks st;
        st_console := st_console st;
        st_heap := st_heap st;
        st_res := st_res st;
        st_trace := st_trace st ++ [Next (Some err)] |})
  ∧ replies_of (globalErrorHandler X err req) st = [].
Proof.
  intros Hs.
  assert (Hrun : globalErrorHandler X err req st
                 = (Normal tt,
                    {| st_ticks := st_ticks st;
                       st_console := st_console st;
                       st_heap := st_heap st;
                       st_res := st_res st;
                       st_trace := st_trace st ++ [Next (Some err)] |})).
  { unfold globalErrorHandler, bind, res_headersSent. cbn. by rewrite Hs. }
  split; [exact Hrun|].
  unfold replies_of, replies_since. rewrite Hrun. cbn. apply drop_all.
Qed.

Lemma globalErrorHandler_forwards_when_sent_witness :
  replies_of
    (globalErrorHandler (sample_externals production) (Ref 0%nat) (sample_request None))
    (sample_state {[0%nat := validation_error]} true)
  = [].
Proof.
  apply (globalErrorHandler_forwards_when_sent (sample_externals production)
           (Ref 0%nat) (sample_request None)
           (sample_state {[0%nat := validation_error]} true)).
  reflexivity.
Defined.

(** ** Classification is a function of the error (C6) *)

Lemma errorHandler_keeps_heap X err req st :
  st_heap (errorHandler X err req st).2 = st_heap st.
Proof.
  unfold errorHandler, bind, load, now_iso, read, console_error, res_status,
    res_json, with_res, ret, throw; cbn.
  destruct (deref (st_heap st) err); cbn;
    try reflexivity; destruct (headersSent (st_res st)); try reflexivity;
    match goal with
    | |- context [(100 <=? ?c) && (?c <=? 999)] =>
        destruct ((100 <=? c) && (c <=? 999))
    end; reflexivity.
Qed.

(** The replies of [errorHandler], in every case. *)
Lemma replies_of_errorHandler_full X err req st :
  replies_of (errorHandler X err req) st
  = if negb (nullish (deref (st_heap st) err))
       && negb (headersSent (st_res st))
       && ((100 <=? to_int32 (statusCodeOf (deref (st_heap st) err)))
           && (to_int32 (statusCodeOf (deref (st_heap st) err)) <=? 999))
    then [(JNum (to_int32 (statusCodeOf (deref (st_heap st) err))),
           errorResponseOf X (deref (st_heap st) err) req
             (JStr (clock X (S (st_ticks st)))))]
    else [].
Proof.
  unfold replies_of, replies_since.
  unfold errorHandler, bind, load, now_iso, read, console_error, res_status,
    res_json, with_res, ret, throw; cbn.
  destruct (deref (st_heap st) err); cbn;
    try apply drop_all;
    destruct (headersSent (st_res st)); cbn;
    try apply drop_all;
    match goal with
    | |- context [(100 <=? ?c) && (?c <=? 999)] =>
        destruct ((100 <=? c) && (c <=? 999)); cbn
    end;
    first [ apply drop_all | apply drop_app_length ].
Qed.

Lemma errorHandler_silent X err req st :
  nullish (deref (st_heap st) err) = true ∨ headersSent (st_res st) = true →
  replies_of (errorHandler X err req) st = [].
Proof.
  intros Hcase. rewrite replies_of_errorHandler_full.
  destruct Hcase as [-> | ->]; [done|]. by rewrite andb_false_r.
Qed.

Lemma classified_envelope X e req ts status :
  classified (status, errorResponseOf X e req ts)
  = (status,
     get (get (errorResponseOf X e req (JStr "")) "error") "code",
     get (get (errorResponseOf X e req (JStr "")) "error") "message",
     get (get (errorResponseOf X e req (JStr "")) "error") "details").
Proof. unfold classified. cbn [fst snd]. by rewrite !error_part. Qed.

(** C6. Classifying an error leaves the heap, and so the error object,
    as it was; and a second classification of the same error, for the
    same request and environment, yields the same status, code, message
    and details as the first, whatever the clock and the console have
    become in between. *)
Theorem classification_is_idempotent X err req st1 st2 :
  st_heap st2 = st_heap (errorHandler X err req st1).2 →
  headersSent (st_res st2) = headersSent (st_res st1) →
  st_heap (errorHandler X err req st1).2 = st_heap st1
  ∧ st_heap (errorHandler X err req st2).2 = st_heap st2
  ∧ map classified (replies_of (errorHandler X err req) st2)
    = map classified (replies_of (errorHandler X err req) st1).
Proof.
  intros Hheap Hsent.
  rewrite errorHandler_keeps_heap in Hheap.
  split; [apply errorHandler_keeps_heap|].
  split; [apply errorHandler_keeps_heap|].
  rewrite !replies_of_errorHandler_full, Hheap, Hsent.
  destruct (_ && _ && _); [|done].
  cbn [map]. by rewrite !classified_envelope.
Qed.

Lemma classification_is_idempotent_witness :
  map classified
    (replies_of
       (errorHandler (sample_externals development) (Ref 0%nat) (sample_request None))
       (sample_state {[0%nat := validation_error]} false))
  = map classified
      (replies_of
         (errorHandler (sample_externals development) (Ref 0%nat) (sample_request None))
         {| st_ticks := 7;
            st_console := [[Value (JStr "earlier")]];
            st_heap := {[0%nat := validation_error]};
            st_res := fresh_response;
            st_trace := [Next None] |}).
Proof.
  symmetry.
  apply (classification_is_idempotent (sample_externals development) (Ref 0%nat)
           (sample_request None)
           (sample_state {[0%nat := validation_error]} false)
           {| st_ticks := 7;
              st_console := [[Value (JStr "earlier")]];
              st_heap := {[0%nat := validation_error]};
              st_res := fresh_response;
              st_trace := [Next None] |}).
  - vm_compute. reflexivity.
  - reflexivity.
Defined.

(** ** The shape of the replies (C7) *)

Section Sends.
Context (P : jsval → bool).

(** A computation that leaves the replies as they are. *)
Lemma sends_nothing {A} (m : M A) :
  (∀ st, sent (st_res (m st).2) = sent (st_res st)) → sends P m.
Proof. intros H st. exists []. by rewrite app_nil_r, H. Qed.

Lemma sends_ret {A} (a : A) : sends P (ret a).
Proof. by apply sends_nothing. Qed.

Lemma sends_throw {A} v : sends P (@throw A v).
Proof. by apply sends_nothing. Qed.

Lemma sends_lift {A} (c : completion A) : sends P (lift c).
Proof. by apply sends_nothing. Qed.

Lemma sends_emit e : sends P (emit e).
Proof. by apply sends_nothing. Qed.

Lemma sends_next e : sends P (next e).
Proof. by apply sends_nothing. Qed.

Lemma sends_console_error args : sends P (console_error args).
Proof. by apply sends_nothing. Qed.

Lemma sends_now_iso X : sends P (now_iso X).
Proof. by apply sends_nothing. Qed.

Lemma sends_load t : sends P (load t).
Proof. by apply sends_nothing. Qed.

Lemma sends_alloc o : sends P (alloc o).
Proof. by apply sends_nothing. Qed.

Lemma sends_store_prop l k v : sends P (store_prop l k v).
Proof. by apply sends_nothing. Qed.

Lemma sends_res_headersSent : sends P res_headersSent.
Proof. by apply sends_nothing. Qed.

Lemma sends_res_status code : sends P (res_status code).
Proof. by apply sends_nothing. Qed.

Lemma sends_read v k : sends P (read v k).
Proof. apply sends_nothing. intros st. by destruct v. Qed.

Lemma sends_res_json body : P body = true → sends P (res_json body).
Proof.
  intros HP st. unfold res_json.
  destruct (headersSent (st_res st)).
  - exists []. by rewrite app_nil_r.
  - cbv zeta.
    destruct ((100 <=? to_int32 (statusCode (st_res st)))
              && (to_int32 (statusCode (st_res st)) <=? 999)).
    + eexists [(_, body)]. split; [done|]. by repeat constructor.
    + exists []. by rewrite app_nil_r.
Qed.

Lemma sends_bind {A B} (m : M A) (k : A → M B) :
  sends P m → (∀ a, sends P (k a)) → sends P (bind m k).
Proof.
  intros Hm Hk st. unfold bind.
  destruct (Hm st) as (l1 & Hl1 & HP1).
  destruct (m st) as [[a|v] st'] eqn:Hrun; cbn in Hl1.
  - destruct (Hk a st') as (l2 & Hl2 & HP2).
    exists (l1 ++ l2). split.
    + by rewrite Hl2, Hl1, app_assoc.
    + by apply Forall_app.
  - by exists l1.
Qed.

Lemma sends_try_catch {A} (m : M A) (h : jsval → M A) :
  sends P m → (∀ v, sends P (h v)) → sends P (try_catch m h).
Proof.
  intros Hm Hh st. unfold try_catch.
  destruct (Hm st) as (l1 & Hl1 & HP1).
  destruct (m st) as [[a|v] st'] eqn:Hrun; cbn in Hl1.
  - by exists l1.
  - destruct (Hh v st') as (l2 & Hl2 & HP2).
    exists (l1 ++ l2). split.
    + by rewrite Hl2, Hl1, app_assoc.
    + by apply Forall_app.
Qed.

Lemma sends_call {A} fn args (answer : completion A) : sends P (call fn args answer).
Proof. apply sends_bind; [apply sends_emit|intros _; apply sends_lift]. Qed.
End Sends.

Create HintDb sends discriminated.
#[local] Hint Resolve sends_ret sends_throw sends_lift sends_emit sends_next
  sends_console_error sends_now_iso sends_load sends_alloc sends_store_prop
  sends_res_headersSent sends_res_status sends_read sends_call : sends.

(** One step through a computation: a sequencing, a [try], a branch, or
    a primitive. *)
Ltac sends_step :=
  match goal with
  | |- sends _ (bind _ _) => apply sends_bind; [|intros ?]
  | |- sends _ (try_catch _ _) => apply sends_try_catch; [|intros ?]
  | |- sends _ (res_json _) => apply sends_res_json; reflexivity
  | |- sends _ (if ?c then _ else _) => destruct c
  | |- sends _ (match ?x with _ => _ end) => destruct x
  | |- sends _ _ => solve [auto with sends]
  end.

(** The envelope of [errorHandler] has the [success] flag, and no
    [data]. *)
Lemma envelope_shape X e req ts :
  has_success (errorResponseOf X e req ts) = true
  ∧ not_both (errorResponseOf X e req ts) = true.
Proof.
  unfold has_success, not_both, errorResponseOf.
  destruct (is_str (get e "name") "ValidationError"),
    (is_str (get e "name") "CastError"),
    (is_str (get e "name") "JsonWebTokenError"),
    (is_str (get e "name") "TokenExpiredError");
    cbv zeta;
    rewrite ?has_key_obj_set2_ne, ?get_obj_set2_ne
      by (try done; repeat apply plain_obj_set2; reflexivity);
    split; reflexivity.
Qed.

Lemma sends_errorHandler P X err req :
  (∀ e ts, P (errorResponseOf X e req ts) = true) →
  sends P (errorHandler X err req).
Proof.
  intros HP. unfold errorHandler.
  repeat first [ apply sends_res_json; apply HP | sends_step ].
Qed.

(** C7, as the specification states it, fails on the health route: its
    reply has no [success] field at all. *)
Lemma health_reply_has_no_success_flag :
  ∃ body,
    replies_of (respond (sample_externals production) ServerHealth (sample_request None))
      (sample_state ∅ false)
    = [(JNum 200, body)]
    ∧ has_key body "success" = false
    ∧ has_key (json_wire body) "success" = false.
Proof.
  eexists. split; [vm_compute; reflexivity|].
  split; vm_compute; reflexivity.
Qed.

(** C7, amended.  Every reply of the item handlers, of the validation
    middleware and of the two error handlers has a boolean [success]
    field; the replies of the health route, of the unmatched-route
    handler and of the router of [routes/index.js] have none.  No reply
    of any of them has both a [data] and an [error] field. *)
Theorem reply_shapes X r req :
  sends
    (λ body,
       (if enveloped r then has_success body else negb (has_key body "success"))
       && not_both body)
    (respond X r req).
Proof.
  destruct r; cbn [respond enveloped];
    try (unfold Controller.getAllItemsHandler, Controller.getItemByIdHandler,
           Controller.createItemHandler, Controller.updateItemHandler,
           Controller.deleteItemHandler, Controller.internal_error,
           Controller.invalid_id, Controller.not_found,
           Controller.validation_failed, Controller.destructure_body,
           Validation.validateRequest, Server.health, Server.notFound,
           Routes.root, Routes.health, Routes.error, Routes.failed;
         repeat sends_step).
  - apply sends_errorHandler. intros e ts.
    destruct (envelope_shape X e req ts) as [-> ->]. reflexivity.
  - unfold globalErrorHandler.
    repeat first
      [ apply sends_errorHandler; intros e ts;
        destruct (envelope_shape X e req ts) as [-> ->]; reflexivity
      | sends_step ].
Qed.

(** ** Configuration (C8) *)

Lemma falsy_env_lookup env k :
  truthy (Config.env_lookup env k) = false ↔ env !! k = None ∨ env !! k = Some "".
Proof.
  unfold Config.env_lookup.
  destruct (env !! k) as [[|c s]|]; cbn; split; intros H; try done; auto;
    by destruct H.
Qed.

Lemma missingVars_spec env k :
  k ∈ Config.missingVars env
  ↔ k ∈ Config.requiredVars ∧ (env !! k = None ∨ env !! k = Some "").
Proof.
  unfold Config.missingVars. rewrite list_elem_of_filter, negb_true_iff, falsy_env_lookup.
  tauto.
Qed.

Lemma validateEnv_throws env :
  rejects (Config.validateEnv env) ↔ some_required_missing env.
Proof.
  unfold Config.validateEnv, some_required_missing.
  destruct (Config.missingVars env) as [|k l] eqn:Hm; cbn.
  - split; [done|]. intros (k & Hk). apply missingVars_spec in Hk.
    rewrite Hm in Hk. by apply elem_of_nil in Hk.
  - split; [|done]. intros _. exists k. apply missingVars_spec.
    rewrite Hm. apply list_elem_of_here.
Qed.

Lemma validateEnv_succeeds env :
  Config.validateEnv env = Normal tt ↔ ¬ some_required_missing env.
Proof.
  rewrite <- validateEnv_throws. unfold Config.validateEnv.
  destruct (0 <? _); cbn; naive_solver.
Qed.

Lemma getConfig_throws X st :
  rejects (Config.getConfig X st).1
  ↔ some_required_missing (env X)
    ∨ (rejects (fs_access X (upload_path X)) ∧ rejects (fs_mkdir X (upload_path X))).
Proof.
  rewrite <- validateEnv_throws.
  unfold Config.getConfig, try_catch, bind, lift, call, bind, lift, emit,
    console_error, throw, ret, upload_path.
  destruct (Config.validateEnv (env X)) as [[]|v]; cbn [rejects fst]; [|tauto].
  assert (Hup : truthy (js_or (env_get X "UPLOAD_PATH") (JStr "./uploads")) = true).
  { unfold js_or. by destruct (truthy (env_get X "UPLOAD_PATH")) eqn:Ht. }
  change (get (JObj None _) "uploadPath")
    with (js_or (env_get X "UPLOAD_PATH") (JStr "./uploads")).
  rewrite Hup.
  destruct (fs_access X _) as [[]|?]; cbn [rejects fst]; [tauto|].
  destruct (fs_mkdir X _) as [[]|?]; cbn [rejects fst]; tauto.
Qed.

(** C8, as the specification states it, fails in one direction: with the
    four variables present, loading the configuration still fails when
    the upload directory can neither be reached nor created. *)
Lemma getConfig_fails_with_all_variables_present :
  ¬ some_required_missing complete_env
  ∧ Config.validateEnv complete_env = Normal tt
  ∧ (Config.getConfig (read_only_fs (sample_externals complete_env))
       (sample_state ∅ false)).1
    = Throw (JObj (Some "Error")
               [("message", JStr "Failed to load application configuration")]).
Proof.
  assert (Hv : Config.validateEnv complete_env = Normal tt) by (vm_compute; reflexivity).
  split; [by apply validateEnv_succeeds|].
  split; [exact Hv|]. vm_compute. reflexivity.
Qed.

(** C8, amended.  [validateEnv] throws exactly when one of [NODE_ENV],
    [PORT], [DATABASE_URL], [JWT_SECRET] is missing or empty, and succeeds
    otherwise.  [getConfig] fails whenever [validateEnv] throws; with the
    four variables present it fails exactly when the upload directory can
    neither be reached nor created. *)
Theorem configuration_loading X st :
  (rejects (Config.validateEnv (env X)) ↔ some_required_missing (env X))
  ∧ (Config.validateEnv (env X) = Normal tt ↔ ¬ some_required_missing (env X))
  ∧ (rejects (Config.getConfig X st).1
     ↔ some_required_missing (env X)
       ∨ (rejects (fs_access X (upload_path X))
          ∧ rejects (fs_mkdir X (upload_path X)))).
Proof.
  split; [apply validateEnv_throws|].
  split; [apply validateEnv_succeeds|apply getConfig_throws].
Qed.

(** ** Invalid identifiers (C9) *)

(** What the guard [!id || isNaN(id)] lets through and what it stops:
    numeric is what [Number] converts, so blanks, hexadecimal and
    exponent forms pass, and letters, units and stray signs do not. *)
Example isNaN_string_samples :
  map isNaN_string ["abc"; "12px"; "1e"; "- 5"; "."; "0x"]
  = [true; true; true; true; true; true]
  ∧ map isNaN_string ["42"; "-5"; " 12 "; "1e3"; "0x1F"; ".5"; "Infinity"]
    = [false; false; false; false; false; false; false].
Proof. split; vm_compute; reflexivity. Qed.




(** ** Values that are not errors (C10) *)

Lemma globalErrorHandler_substitutes X err req st :
  headersSent (st_res st) = false →
  instanceof_Error (deref (st_heap st) err) = false →
  globalErrorHandler X err req st
  = errorHandler X (Ref (fresh_loc (st_heap st))) req
      {| st_ticks := st_ticks st;
         st_console := st_console st;
         st_heap := <[fresh_loc (st_heap st) := substitute_error X]> (st_heap st);
         st_res := st_res st;
         st_trace := st_trace st |}.
Proof.
  intros Hs He.
  unfold globalErrorHandler, bind, res_headersSent, load, alloc, store_prop.
  cbn. rewrite Hs, He. cbn. by rewrite alter_insert_eq.
Qed.

(** C10, as the specification states it, fails once the headers have
    left: a thrown string is then handed to [next] as it is, no error
    is substituted and no reply is written. *)
Lemma thrown_string_is_forwarded_when_sent :
  globalErrorHandler (sample_externals production) (Prim (JStr "boom"))
    (sample_request None) (sample_state ∅ true)
  = (Normal tt,
     {| st_ticks := 0;
        st_console := [];
        st_heap := ∅;
        st_res := {| headersSent := true; statusCode := JNum 200; sent := [] |};
        st_trace := [Next (Some (Prim (JStr "boom")))] |})
  ∧ instanceof_Error (JStr "boom") = false.
Proof. split; reflexivity. Qed.

(** C10, amended.  When the headers have not left and the value handed
    to [globalErrorHandler] is not an instance of [Error], the handler
    allocates a new error with message ['Error desconocido'] and
    [statusCode] 500, leaves the rest of the heap alone, and completes
    with one reply: status 500 and an envelope with [success: false],
    code 500 and that message. *)
Theorem non_error_is_answered_with_500 X err req st :
  headersSent (st_res st) = false →
  instanceof_Error (deref (st_heap st) err) = false →
  ∃ body,
    (globalErrorHandler X err req st).1 = Normal tt
    ∧ replies_of (globalErrorHandler X err req) st = [(JNum 500, body)]
    ∧ get body "success" = JBool false
    ∧ get (get body "error") "code" = JNum 500
    ∧ get (get body "error") "message" = JStr "Error desconocido"
    ∧ st_heap (globalErrorHandler X err req st).2
      = <[fresh_loc (st_heap st) := substitute_error X]> (st_heap st)
    ∧ st_heap st !! fresh_loc (st_heap st) = None.
Proof.
  intros Hs He.
  set (st' := {| st_ticks := st_ticks st;
                 st_console := st_console st;
                 st_heap := <[fresh_loc (st_heap st) := substitute_error X]> (st_heap st);
                 st_res := st_res st;
                 st_trace := st_trace st |}).
  assert (Hderef : deref (st_heap st') (Ref (fresh_loc (st_heap st))) = substitute_error X).
  { cbn. by rewrite lookup_insert_eq. }
  assert (Hrun := errorHandler_run X (Ref (fresh_loc (st_heap st))) req st').
  rewrite Hderef in Hrun. specialize (Hrun eq_refl Hs eq_refl).
  exists (errorResponseOf X (substitute_error X) req (JStr (clock X (S (st_ticks st))))).
  unfold replies_of, replies_since.
  rewrite (globalErrorHandler_substitutes X err req st Hs He). fold st'.
  rewrite Hrun. cbn [fst snd st_res st_heap sent].
  split; [done|]. split; [apply drop_app_length|].
  split.
  { unfold errorResponseOf. cbn.
    destruct (is_str (env_get X "NODE_ENV") "development"); reflexivity. }
  rewrite error_part.
  split; [destruct (is_str (env_get X "NODE_ENV") "development"); reflexivity|].
  split; [destruct (is_str (env_get X "NODE_ENV") "development"); reflexivity|].
  split; [done|].
  apply not_elem_of_dom. unfold fresh_loc. apply is_fresh.
Qed.

Lemma non_error_is_answered_with_500_witness :
  ∃ body,
    replies_of
      (globalErrorHandler (sample_externals production) (Prim (JStr "boom"))
         (sample_request None))
      (sample_state ∅ false)
    = [(JNum 500, body)]
    ∧ get (get body "error") "message" = JStr "Error desconocido".
Proof.
  destruct (non_error_is_answered_with_500 (sample_externals production)
              (Prim (JStr "boom")) (sample_request None) (sample_state ∅ false))
    as (body & _ & Hreply & _ & _ & Hmsg & _); [reflexivity..|].
  exists body. split; [exact Hreply|exact Hmsg].
Defined.

(** * Further properties of the code *)

Import Behaviour.

(** ** [errorHandler] *)

Lemma trace_of_errorHandler X err req st :
  trace_of (errorHandler X err req) st = [].
Proof.
  unfold trace_of, trace_since.
  unfold errorHandler, bind, load, now_iso, read, console_error, res_status,
    res_json, with_res, ret, throw; cbn.
  destruct (deref (st_heap st) err); cbn;
    try apply drop_all; destruct (headersSent (st_res st)); try apply drop_all;
    match goal with
    | |- context [(100 <=? ?c) && (?c <=? 999)] =>
        destruct ((100 <=? c) && (c <=? 999))
    end; apply drop_all.
Qed.

(** How [errorHandler] completes, in every case. *)
Lemma errorHandler_completion X err req st :
  (errorHandler X err req st).1
  = if nullish (deref (st_heap st) err)
    then Throw (type_error (deref (st_heap st) err) "message")
    else if headersSent (st_res st) then Throw headers_sent_error
    else if (100 <=? to_int32 (statusCodeOf (deref (st_heap st) err)))
            && (to_int32 (statusCodeOf (deref (st_heap st) err)) <=? 999)
    then Normal tt
    else Throw (invalid_status_error (statusCodeOf (deref (st_heap st) err))).
Proof.
  unfold errorHandler, bind, load, now_iso, read, console_error, res_status,
    res_json, with_res, ret, throw; cbn.
  destruct (deref (st_heap st) err); cbn;
    try reflexivity; destruct (headersSent (st_res st)); try reflexivity;
    match goal with
    | |- context [(100 <=? ?c) && (?c <=? 999)] =>
        destruct ((100 <=? c) && (c <=? 999))
    end; reflexivity.
Qed.

(** X1. The status [errorHandler] asks for is [err.statusCode] when
    that is truthy, else [err.status] when that is truthy, else 500;
    the name of the error has no part in it.  When that status is an
    integer [n], the handler answers with status [n] if [n] is from 100
    to 999, and otherwise its [res.json] call throws and nothing is
    answered.  In neither case does it call [next] or a collaborator. *)
Theorem reply_status_follows_the_error X err req st (n : Z) :
  nullish (deref (st_heap st) err) = false →
  headersSent (st_res st) = false →
  statusCodeOf (deref (st_heap st) err) = JNum n →
  - 2147483648 <= n < 2147483648 →
  JNum n
  = (if truthy (get (deref (st_heap st) err) "statusCode")
     then get (deref (st_heap st) err) "statusCode"
     else if truthy (get (deref (st_heap st) err) "status")
          then get (deref (st_heap st) err) "status"
          else JNum 500)
  ∧ trace_of (errorHandler X err req) st = []
  ∧ (100 <= n <= 999 →
     (errorHandler X err req st).1 = Normal tt
     ∧ ∃ body, replies_of (errorHandler X err req) st = [(JNum n, body)])
  ∧ (¬ 100 <= n <= 999 →
     (errorHandler X err req st).1 = Throw (invalid_status_error (JNum n))
     ∧ replies_of (errorHandler X err req) st = []).
Proof.
  intros Hn Hs Hcode Hrange.
  split.
  { rewrite <- Hcode. unfold statusCodeOf, js_or.
    destruct (truthy (get _ "statusCode")) eqn:Hc; [by rewrite Hc|].
    by destruct (truthy (get _ "status")) eqn:Hst; rewrite ?Hst. }
  split; [apply trace_of_errorHandler|].
  rewrite errorHandler_completion, replies_of_errorHandler_full, Hn, Hs, Hcode.
  cbn [to_int32 negb andb]. rewrite wrap32_small by lia.
  split; intros Hvalid.
  - assert (Hb : (100 <=? n) && (n <=? 999) = true) by lia.
    rewrite Hb. split; [done|]. by eexists.
  - assert (Hb : (100 <=? n) && (n <=? 999) = false) by lia.
    by rewrite Hb.
Qed.

Lemma reply_status_follows_the_error_witness :
  (∃ body,
     replies_of
       (errorHandler (sample_externals production) (Ref 0%nat) (sample_request None))
       (sample_state
          {[0%nat := JObj (Some "ValidationError")
                       [("message", JStr "bad"); ("status", JNum 422)]]} false)
     = [(JNum 422, body)])
  ∧ replies_of
      (errorHandler (sample_externals production) (Ref 0%nat) (sample_request None))
      (sample_state
         {[0%nat := JObj (Some "Error")
                      [("message", JStr "bad"); ("statusCode", JNum 42)]]} false)
    = [].
Proof.
  split.
  - destruct (reply_status_follows_the_error (sample_externals production) (Ref 0%nat)
                (sample_request None)
                (sample_state
                   {[0%nat := JObj (Some "ValidationError")
                                [("message", JStr "bad"); ("status", JNum 422)]]}
                   false) 422)
      as (_ & _ & Hvalid & _); [reflexivity | reflexivity | reflexivity | lia |].
    apply Hvalid. lia.
  - destruct (reply_status_follows_the_error (sample_externals production) (Ref 0%nat)
                (sample_request None)
                (sample_state
                   {[0%nat := JObj (Some "Error")
                                [("message", JStr "bad"); ("statusCode", JNum 42)]]}
                   false) 42)
      as (_ & _ & _ & Hinvalid); [reflexivity | reflexivity | reflexivity | lia |].
    apply Hinvalid. lia.
Defined.

(** The [error] part for a name that is one of the four. *)
Lemma error_part_of_kind X e req ts (name : string) :
  get e "name" = JStr name →
  get (errorResponseOf X e req ts) "error"
  = let part :=
      JObj None
        ([ ("code", statusCodeOf e);
           ("message",
            js_or (get e "message")
              (js_or (get e "statusMessage") (getErrorMessage (statusCodeOf e)))) ]
         ++ (if is_str (env_get X "NODE_ENV") "development"
             then [("stack", get e "stack")] else [])) in
    if bool_decide (name = "ValidationError")
    then obj_set (obj_set (obj_set part "code" (JNum 400))
                    "message" (JStr "Datos de entrada inválidos"))
           "details" (js_or (get e "details") (JArr []))
    else if bool_decide (name = "CastError")
    then obj_set (obj_set part "code" (JNum 400)) "message" (JStr "ID inválido")
    else if bool_decide (name = "JsonWebTokenError")
    then obj_set (obj_set part "code" (JNum 401)) "message" (JStr "Token inválido")
    else if bool_decide (name = "TokenExpiredError")
    then obj_set (obj_set part "code" (JNum 401)) "message" (JStr "Token expirado")
    else part.
Proof.
  intros Hname. rewrite error_part, Hname. cbn [is_str]. cbv zeta.
  destruct (decide (name = "ValidationError")) as [->|H1]; [reflexivity|].
  rewrite (bool_decide_eq_false_2 _ H1).
  destruct (decide (name = "CastError")) as [->|H2]; [reflexivity|].
  rewrite (bool_decide_eq_false_2 _ H2).
  destruct (decide (name = "JsonWebTokenError")) as [->|H3]; [reflexivity|].
  rewrite (bool_decide_eq_false_2 _ H3).
  destruct (decide (name = "TokenExpiredError")) as [->|H4]; [reflexivity|].
  by rewrite (bool_decide_eq_false_2 _ H4).
Qed.

(** X2. An error named [CastError] is answered with envelope code 400
    and message ['ID inválido'], one named [JsonWebTokenError] with code
    401 and ['Token inválido'], whatever message the error carries; the
    reply goes out with the error's own status, here taken to be an
    integer from 100 to 999. *)
Theorem cast_and_token_envelopes X err req st (name : string) :
  nullish (deref (st_heap st) err) = false →
  headersSent (st_res st) = false →
  http_status (statusCodeOf (deref (st_heap st) err)) = true →
  get (deref (st_heap st) err) "name" = JStr name →
  name = "CastError" ∨ name = "JsonWebTokenError" →
  ∃ body,
    replies_of (errorHandler X err req) st
    = [(statusCodeOf (deref (st_heap st) err), body)]
    ∧ get (get body "error") "code"
      = (if bool_decide (name = "CastError") then JNum 400 else JNum 401)
    ∧ get (get body "error") "message"
      = (if bool_decide (name = "CastError")
         then JStr "ID inválido" else JStr "Token inválido")
    ∧ has_key (get body "error") "details" = false.
Proof.
  intros Hn Hs Hv Hname Hkind. eexists.
  split; [by apply replies_of_errorHandler|].
  rewrite (error_part_of_kind _ _ _ _ name Hname).
  destruct Hkind as [-> | ->]; cbn;
    destruct (is_str (env_get X "NODE_ENV") "development"); done.
Qed.

Lemma cast_and_token_envelopes_witness :
  ∃ body,
    replies_of
      (errorHandler (sample_externals production) (Ref 0%nat) (sample_request None))
      (sample_state
         {[0%nat := JObj (Some "CastError")
                      [("message", JStr "Cast to ObjectId failed")]]} false)
    = [(JNum 500, body)]
    ∧ get (get body "error") "message" = JStr "ID inválido".
Proof.
  destruct (cast_and_token_envelopes (sample_externals production) (Ref 0%nat)
              (sample_request None)
              (sample_state
                 {[0%nat := JObj (Some "CastError")
                              [("message", JStr "Cast to ObjectId failed")]]} false)
              "CastError")
    as (body & Hreply & _ & Hmsg & _);
    [reflexivity | reflexivity | reflexivity | reflexivity | by left |].
  exists body. split; [exact Hreply | exact Hmsg].
Defined.

(** X3. The envelope has a [details] field exactly when the error is
    named [ValidationError]; it then holds [err.details], or the empty
    array when the error has none.  Details attached to an error of any
    other name are not passed on.  This holds of the envelope as built,
    and so of every reply the handler writes. *)
Theorem details_only_for_validation_errors X err req st :
  (∀ ts,
     has_key (get (errorResponseOf X (deref (st_heap st) err) req ts) "error") "details"
     = is_str (get (deref (st_heap st) err) "name") "ValidationError"
     ∧ (is_str (get (deref (st_heap st) err) "name") "ValidationError" = true →
        get (get (errorResponseOf X (deref (st_heap st) err) req ts) "error") "details"
        = js_or (get (deref (st_heap st) err) "details") (JArr [])))
  ∧ (∀ status body,
       (status, body) ∈ replies_of (errorHandler X err req) st →
       has_key (get body "error") "details"
       = is_str (get (deref (st_heap st) err) "name") "ValidationError"
       ∧ (is_str (get (deref (st_heap st) err) "name") "ValidationError" = true →
          get (get body "error") "details"
          = js_or (get (deref (st_heap st) err) "details") (JArr []))).
Proof.
  assert (Henv : ∀ ts,
    has_key (get (errorResponseOf X (deref (st_heap st) err) req ts) "error") "details"
    = is_str (get (deref (st_heap st) err) "name") "ValidationError"
    ∧ (is_str (get (deref (st_heap st) err) "name") "ValidationError" = true →
       get (get (errorResponseOf X (deref (st_heap st) err) req ts) "error") "details"
       = js_or (get (deref (st_heap st) err) "details") (JArr []))).
  { intros ts. rewrite error_part. cbv zeta.
    destruct (is_str (get _ "name") "ValidationError"),
      (is_str (get _ "name") "CastError"),
      (is_str (get _ "name") "JsonWebTokenError"),
      (is_str (get _ "name") "TokenExpiredError"),
      (is_str (env_get X "NODE_ENV") "development");
      split; try reflexivity; intros; try discriminate; reflexivity. }
  split; [exact Henv|].
  intros status body Hin.
  destruct (replies_of_errorHandler_cases X err req st) as [Hnone|[status' Hone]].
  - rewrite Hnone in Hin. by apply elem_of_nil in Hin.
  - rewrite Hone in Hin. apply list_elem_of_singleton in Hin as [= -> ->].
    apply Henv.
Qed.

Lemma details_only_for_validation_errors_witness :
  ∃ status body,
    replies_of
      (errorHandler (sample_externals production) (Ref 0%nat) (sample_request None))
      (sample_state
         {[0%nat := JObj (Some "Error")
                      [("message", JStr "boom");
                       ("details", JArr [JStr "internal"])]]} false)
    = [(status, body)]
    ∧ has_key (get body "error") "details" = false.
Proof.
  do 2 eexists. split; [vm_compute; reflexivity|].
  destruct (details_only_for_validation_errors (sample_externals production)
              (Ref 0%nat) (sample_request None)
              (sample_state
                 {[0%nat := JObj (Some "Error")
                              [("message", JStr "boom");
                               ("details", JArr [JStr "internal"])]]} false))
    as [_ Hevery].
  match goal with
  | |- has_key (get ?b "error") "details" = false =>
      destruct (Hevery (JNum 500) b) as [Hkey _]
  end.
  - vm_compute. constructor.
  - rewrite Hkey. reflexivity.
Defined.

(** X4. For an error whose name is none of the four and whose status
    is an integer from 100 to 999, the code of the envelope is the
    status sent, and the message of the envelope is the error's own
    message when it has one, whatever the status. *)
Theorem unrecognized_errors_keep_their_message X err req st :
  nullish (deref (st_heap st) err) = false →
  headersSent (st_res st) = false →
  http_status (statusCodeOf (deref (st_heap st) err)) = true →
  recognized_kind (get (deref (st_heap st) err) "name") = false →
  ∃ status body,
    replies_of (errorHandler X err req) st = [(status, body)]
    ∧ get (get body "error") "code" = status
    ∧ (truthy (get (deref (st_heap st) err) "message") = true →
       get (get body "error") "message" = get (deref (st_heap st) err) "message").
Proof.
  intros Hn Hs Hv Hkind. do 2 eexists.
  split; [by apply replies_of_errorHandler|].
  unfold recognized_kind in Hkind.
  apply orb_false_elim in Hkind as [Hkind Hk4].
  apply orb_false_elim in Hkind as [Hkind Hk3].
  apply orb_false_elim in Hkind as [Hk1 Hk2].
  rewrite error_part, Hk1, Hk2, Hk3, Hk4. cbv zeta.
  split; [reflexivity|].
  intros Hmsg.
  change (get (JObj None _) "message")
    with (js_or (get (deref (st_heap st) err) "message")
            (js_or (get (deref (st_heap st) err) "statusMessage")
               (getErrorMessage (statusCodeOf (deref (st_heap st) err))))).
  unfold js_or at 1. by rewrite Hmsg.
Qed.

Lemma unrecognized_errors_keep_their_message_witness :
  ∃ status body,
    replies_of
      (errorHandler (sample_externals production) (Ref 0%nat) (sample_request None))
      (sample_state
         {[0%nat := JObj (Some "Error")
                      [("message", JStr "connect ECONNREFUSED 10.0.0.5:27017")]]}
         false)
    = [(status, body)]
    ∧ get (get body "error") "message" = JStr "connect ECONNREFUSED 10.0.0.5:27017".
Proof.
  destruct (unrecognized_errors_keep_their_message (sample_externals production)
              (Ref 0%nat) (sample_request None)
              (sample_state
                 {[0%nat := JObj (Some "Error")
                              [("message", JStr "connect ECONNREFUSED 10.0.0.5:27017")]]}
                 false))
    as (status & body & Hreply & _ & Hmsg); [reflexivity..|].
  exists status, body. split; [exact Hreply|]. by apply Hmsg.
Defined.

Lemma truthy_js_or_r a b : truthy b = true → truthy (js_or a b) = true.
Proof. intros Hb. unfold js_or. by destruct (truthy a) eqn:Ha. Qed.

Lemma truthy_getErrorMessage v : truthy (getErrorMessage v) = true.
Proof. by apply truthy_js_or_r. Qed.

(** X5. Whatever the error, the code and the message of the envelope
    are truthy, never [undefined], [null], zero or the empty string:
    this holds of the envelope as built, and so of every reply the
    handler writes; and every reply goes out with an integer status
    from 100 to 999. *)
Theorem envelope_code_and_message_are_set X err req st :
  (∀ ts,
     truthy (get (get (errorResponseOf X (deref (st_heap st) err) req ts) "error")
               "code") = true
     ∧ truthy (get (get (errorResponseOf X (deref (st_heap st) err) req ts) "error")
                 "message") = true)
  ∧ (∀ status body,
       (status, body) ∈ replies_of (errorHandler X err req) st →
       http_status status = true
       ∧ truthy (get (get body "error") "code") = true
       ∧ truthy (get (get body "error") "message") = true).
Proof.
  assert (Henv : ∀ ts,
    truthy (get (get (errorResponseOf X (deref (st_heap st) err) req ts) "error")
              "code") = true
    ∧ truthy (get (get (errorResponseOf X (deref (st_heap st) err) req ts) "error")
                "message") = true).
  { intros ts.
    assert (Hc : truthy (statusCodeOf (deref (st_heap st) err)) = true)
      by by apply truthy_js_or_r.
    rewrite error_part.
    assert (Hm : truthy (js_or (get (deref (st_heap st) err) "message")
                           (js_or (get (deref (st_heap st) err) "statusMessage")
                              (getErrorMessage (statusCodeOf (deref (st_heap st) err)))))
                 = true).
    { apply truthy_js_or_r, truthy_js_or_r, truthy_getErrorMessage. }
    revert Hc Hm.
    generalize (statusCodeOf (deref (st_heap st) err)) as c.
    intros c.
    generalize (js_or (get (deref (st_heap st) err) "message")
                  (js_or (get (deref (st_heap st) err) "statusMessage")
                     (getErrorMessage c))) as m.
    intros m Hc Hm. cbv zeta.
    destruct (is_str (get _ "name") "ValidationError"),
      (is_str (get _ "name") "CastError"),
      (is_str (get _ "name") "JsonWebTokenError"),
      (is_str (get _ "name") "TokenExpiredError"),
      (is_str (env_get X "NODE_ENV") "development");
      split; first [reflexivity | exact Hc | exact Hm]. }
  split; [exact Henv|].
  intros status body Hin. rewrite replies_of_errorHandler_full in Hin.
  destruct (negb (nullish _) && negb (headersSent _)); cbn [andb] in Hin;
    [|by apply elem_of_nil in Hin].
  destruct ((100 <=? _) && (_ <=? 999)) eqn:Hvalid;
    [|by apply elem_of_nil in Hin].
  apply list_elem_of_singleton in Hin as [= -> ->].
  split; [exact Hvalid | apply Henv].
Qed.

Lemma envelope_code_and_message_are_set_witness :
  ∃ status body,
    replies_of
      (errorHandler (sample_externals production) (Ref 0%nat) (sample_request None))
      (sample_state
         {[0%nat := JObj None [("statusCode", JNum 0); ("message", JStr "")]]} false)
    = [(status, body)]
    ∧ truthy (get (get body "error") "message") = true.
Proof.
  do 2 eexists. split; [vm_compute; reflexivity|].
  destruct (envelope_code_and_message_are_set (sample_externals production)
              (Ref 0%nat) (sample_request None)
              (sample_state
                 {[0%nat := JObj None [("statusCode", JNum 0); ("message", JStr "")]]}
                 false))
    as [_ Hevery].
  match goal with
  | |- truthy (get (get ?b "error") "message") = true =>
      destruct (Hevery (JNum 500) b) as (_ & _ & Hmsg)
  end.
  - vm_compute. constructor.
  - exact Hmsg.
Defined.

(** X6. [errorHandler] has no guard of its own: on a response whose
    headers have already left it still tries to reply, so its
    [res.json] call throws; no reply is written, and the error is not
    handed to [next]. *)
Theorem errorHandler_throws_when_sent X err req st :
  nullish (deref (st_heap st) err) = false →
  headersSent (st_res st) = true →
  (errorHandler X err req st).1 = Throw headers_sent_error
  ∧ replies_of (errorHandler X err req) st = []
  ∧ trace_of (errorHandler X err req) st = [].
Proof.
  intros Hn Hs.
  split; [|split; [apply errorHandler_silent; by right | apply trace_of_errorHandler]].
  unfold errorHandler, bind, load, now_iso, read, console_error, res_status,
    res_json, with_res, ret, throw; cbn.
  destruct (deref (st_heap st) err); try discriminate; cbn; by rewrite Hs.
Qed.

Lemma errorHandler_throws_when_sent_witness :
  (errorHandler (sample_externals production) (Ref 0%nat) (sample_request None)
     (sample_state {[0%nat := bare_error]} true)).1
  = Throw headers_sent_error.
Proof.
  apply (errorHandler_throws_when_sent (sample_externals production) (Ref 0%nat)
           (sample_request None) (sample_state {[0%nat := bare_error]} true));
    reflexivity.
Defined.

(** ** [globalErrorHandler] *)

(** X7. For an instance of [Error], on a response whose headers have
    not left, [globalErrorHandler] is [errorHandler]: same completion,
    same reply, same log, and nothing is allocated. *)
Theorem globalErrorHandler_delegates_errors X err req st :
  headersSent (st_res st) = false →
  instanceof_Error (deref (st_heap st) err) = true →
  globalErrorHandler X err req st = errorHandler X err req st
  ∧ st_heap (globalErrorHandler X err req st).2 = st_heap st.
Proof.
  intros Hs He.
  assert (Heq : globalErrorHandler X err req st = errorHandler X err req st).
  { unfold globalErrorHandler, bind, res_headersSent, load. cbn. by rewrite Hs, He. }
  split; [exact Heq|]. rewrite Heq. apply errorHandler_keeps_heap.
Qed.

Lemma globalErrorHandler_delegates_errors_witness :
  globalErrorHandler (sample_externals production) (Ref 0%nat) (sample_request None)
    (sample_state {[0%nat := token_expired_error]} false)
  = errorHandler (sample_externals production) (Ref 0%nat) (sample_request None)
      (sample_state {[0%nat := token_expired_error]} false).
Proof.
  apply (globalErrorHandler_delegates_errors (sample_externals production)
           (Ref 0%nat) (sample_request None)
           (sample_state {[0%nat := token_expired_error]} false));
    reflexivity.
Defined.

(** ** One reply at most *)

Section OneReply.

Lemma one_reply_untouched {A} (m : M A) :
  (∀ st, sent (st_res (m st).2) = sent (st_res st)
         ∧ headersSent (st_res (m st).2) = headersSent (st_res st)) →
  one_reply m.
Proof.
  intros H st. destruct (H st) as [Hsent Hhs].
  split; intros Hs; rewrite Hsent, Hhs; [done|by left].
Qed.

Lemma one_reply_ret {A} (a : A) : one_reply (ret a).
Proof. by apply one_reply_untouched. Qed.

Lemma one_reply_throw {A} v : one_reply (@throw A v).
Proof. by apply one_reply_untouched. Qed.

Lemma one_reply_lift {A} (c : completion A) : one_reply (lift c).
Proof. by apply one_reply_untouched. Qed.

Lemma one_reply_emit e : one_reply (emit e).
Proof. by apply one_reply_untouched. Qed.

Lemma one_reply_next e : one_reply (next e).
Proof. by apply one_reply_untouched. Qed.

Lemma one_reply_console_error args : one_reply (console_error args).
Proof. by apply one_reply_untouched. Qed.

Lemma one_reply_now_iso X : one_reply (now_iso X).
Proof. by apply one_reply_untouched. Qed.

Lemma one_reply_load t : one_reply (load t).
Proof. by apply one_reply_untouched. Qed.

Lemma one_reply_alloc o : one_reply (alloc o).
Proof. by apply one_reply_untouched. Qed.

Lemma one_reply_store_prop l k v : one_reply (store_prop l k v).
Proof. by apply one_reply_untouched. Qed.

Lemma one_reply_res_headersSent : one_reply res_headersSent.
Proof. by apply one_reply_untouched. Qed.

Lemma one_reply_res_status code : one_reply (res_status code).
Proof. by apply one_reply_untouched. Qed.

Lemma one_reply_read v k : one_reply (read v k).
Proof. apply one_reply_untouched. intros st. by destruct v. Qed.

Lemma one_reply_res_json body : one_reply (res_json body).
Proof.
  intros st. unfold res_json.
  destruct (headersSent (st_res st)) eqn:Hs; split; intros Hs'; try discriminate.
  - done.
  - cbv zeta.
    destruct ((100 <=? to_int32 (statusCode (st_res st)))
              && (to_int32 (statusCode (st_res st)) <=? 999)).
    + right. by eexists.
    + left. done.
Qed.

Lemma one_reply_chain (st st1 st2 : state) :
  ((headersSent (st_res st) = true →
    sent (st_res st1) = sent (st_res st) ∧ headersSent (st_res st1) = true)
   ∧ (headersSent (st_res st) = false →
      (sent (st_res st1) = sent (st_res st) ∧ headersSent (st_res st1) = false)
      ∨ (∃ r, sent (st_res st1) = sent (st_res st) ++ [r]
              ∧ headersSent (st_res st1) = true))) →
  ((headersSent (st_res st1) = true →
    sent (st_res st2) = sent (st_res st1) ∧ headersSent (st_res st2) = true)
   ∧ (headersSent (st_res st1) = false →
      (sent (st_res st2) = sent (st_res st1) ∧ headersSent (st_res st2) = false)
      ∨ (∃ r, sent (st_res st2) = sent (st_res st1) ++ [r]
              ∧ headersSent (st_res st2) = true))) →
  (headersSent (st_res st) = true →
   sent (st_res st2) = sent (st_res st) ∧ headersSent (st_res st2) = true)
  ∧ (headersSent (st_res st) = false →
     (sent (st_res st2) = sent (st_res st) ∧ headersSent (st_res st2) = false)
     ∨ (∃ r, sent (st_res st2) = sent (st_res st) ++ [r]
             ∧ headersSent (st_res st2) = true)).
Proof.
  intros [H1t H1f] [H2t H2f]. split; intros Hs.
  - destruct (H1t Hs) as [E1 S1]. destruct (H2t S1) as [E2 S2].
    split; [congruence|done].
  - destruct (H1f Hs) as [[E1 S1]|(r & E1 & S1)].
    + destruct (H2f S1) as [[E2 S2]|(r & E2 & S2)].
      * left. split; [congruence|done].
      * right. exists r. split; [congruence|done].
    + destruct (H2t S1) as [E2 S2]. right. exists r. split; [congruence|done].
Qed.

Lemma one_reply_bind {A B} (m : M A) (k : A → M B) :
  one_reply m → (∀ a, one_reply (k a)) → one_reply (bind m k).
Proof.
  intros Hm Hk st. unfold bind. specialize (Hm st).
  destruct (m st) as [[a|v] st1]; cbn in *; [|exact Hm].
  apply (one_reply_chain st st1 _ Hm (Hk a st1)).
Qed.

Lemma one_reply_try_catch {A} (m : M A) (h : jsval → M A) :
  one_reply m → (∀ v, one_reply (h v)) → one_reply (try_catch m h).
Proof.
  intros Hm Hh st. unfold try_catch. specialize (Hm st).
  destruct (m st) as [[a|v] st1]; cbn in *; [exact Hm|].
  apply (one_reply_chain st st1 _ Hm (Hh v st1)).
Qed.

Lemma one_reply_call {A} fn args (answer : completion A) :
  one_reply (call fn args answer).
Proof. apply one_reply_bind; [apply one_reply_emit|intros _; apply one_reply_lift]. Qed.

End OneReply.

Create HintDb one_reply discriminated.
#[local] Hint Resolve one_reply_ret one_reply_throw one_reply_lift one_reply_emit
  one_reply_next one_reply_console_error one_reply_now_iso one_reply_load
  one_reply_alloc one_reply_store_prop one_reply_res_headersSent
  one_reply_res_status one_reply_read one_reply_res_json one_reply_call : one_reply.

Ltac one_reply_step :=
  match goal with
  | |- one_reply (bind _ _) => apply one_reply_bind; [|intros ?]
  | |- one_reply (try_catch _ _) => apply one_reply_try_catch; [|intros ?]
  | |- one_reply (if ?c then _ else _) => destruct c
  | |- one_reply (match ?x with _ => _ end) => destruct x
  | |- one_reply _ => solve [auto with one_reply]
  end.

Lemma one_reply_errorHandler X err req : one_reply (errorHandler X err req).
Proof. unfold errorHandler. repeat one_reply_step. Qed.

Lemma one_reply_respond X r req : one_reply (respond X r req).
Proof.
  destruct r; cbn [respond];
    try apply one_reply_errorHandler;
    unfold Controller.getAllItemsHandler, Controller.getItemByIdHandler,
      Controller.createItemHandler, Controller.updateItemHandler,
      Controller.deleteItemHandler, Controller.internal_error,
      Controller.invalid_id, Controller.not_found,
      Controller.validation_failed, Controller.destructure_body,
      Validation.validateRequest, Server.health, Server.notFound,
      Routes.root, Routes.health, Routes.error, Routes.failed,
      globalErrorHandler;
    repeat first [ apply one_reply_errorHandler | one_reply_step ].
Qed.

(** X8. Whatever the request, the collaborators and the state it starts
    from, each handler of the program writes at most one reply in a
    run; it writes none on a response whose headers have already left,
    and after a reply the headers have left. *)
Theorem handlers_reply_at_most_once X r req st :
  (length (replies_of (respond X r req) st) ≤ 1)%nat
  ∧ (headersSent (st_res st) = true → replies_of (respond X r req) st = [])
  ∧ (replies_of (respond X r req) st ≠ [] →
     headersSent (st_res (respond X r req st).2) = true).
Proof.
  destruct (one_reply_respond X r req st) as [Ht Hf].
  unfold replies_of, replies_since.
  destruct (headersSent (st_res st)) eqn:Hs.
  - destruct (Ht eq_refl) as [-> Hsent]. rewrite drop_all. cbn. split; [lia|done].
  - destruct (Hf eq_refl) as [[-> Hsent]|(reply & -> & Hsent)].
    + rewrite drop_all. cbn. split; [lia|]. split; [done|]. by intros [].
    + rewrite drop_app_length. cbn. split; [lia|]. split; [done|]. done.
Qed.

(** ** Running a handler *)

Lemma drop_length_app2 {A} (l a b : list A) :
  drop (length l) ((l ++ a) ++ b) = a ++ b.
Proof. by rewrite <- app_assoc, drop_app_length. Qed.

Ltac js_unfold :=
  unfold replies_of, replies_since, trace_of, trace_since, logged_of,
    try_catch, bind, call, emit, lift, ret, throw, res_status, res_json,
    with_res, console_error, now_iso, next.

Ltac js_lists :=
  rewrite ?wrap32_small by lia; cbn;
  rewrite ?drop_length_app2, ?drop_app_length, ?drop_all.

Lemma truthy_JStr s : s ≠ "" → truthy (JStr s) = true.
Proof. by destruct s. Qed.

Lemma valid_id_passes req s :
  valid_id req s →
  Controller.param req "id" = JStr s
  ∧ negb (truthy (JStr s)) || isNaN (JStr s) = false.
Proof.
  intros (Hp & Hne & Hnan). unfold Controller.param. rewrite Hp.
  split; [done|]. cbn [isNaN]. by rewrite truthy_JStr, Hnan.
Qed.

Lemma read_not_nullish v k st :
  nullish v = false → read v k st = (Normal (get v k), st).
Proof. by destruct v. Qed.

Lemma read_nullish v k st :
  nullish v = true → read v k st = (Throw (type_error v k), st).
Proof. by destruct v. Qed.


Lemma destructure_body_nullish req st :
  nullish (body req) = true →
  ∃ e, Controller.destructure_body req st = (Throw e, st)
       ∧ nullish e = false.
Proof.
  unfold Controller.destructure_body.
  destruct (body req); try discriminate; intros _; by eexists.
Qed.

(** ** [validateRequest] *)

(** X9. When express-validator reports no failure, [validateRequest]
    calls [next()] and writes nothing; when it reports failures, the
    middleware answers 400 with all of them and does not call [next]. *)
Theorem validateRequest_passes_or_rejects X req st errors :
  validationResult X req = Normal errors →
  headersSent (st_res st) = false →
  (Validation.validateRequest X req st).1 = Normal tt
  ∧ replies_of (Validation.validateRequest X req) st
    = (if bool_decide (errors = []) then []
       else [(JNum 400,
              JObj None [ ("success", JBool false);
                          ("message", JStr "Validation failed");
                          ("errors", JArr errors) ])])
  ∧ trace_of (Validation.validateRequest X req) st
    = Call "validationResult" []
      :: (if bool_decide (errors = []) then [Next None] else []).
Proof.
  intros Hv Hs. unfold Validation.validateRequest. js_unfold.
  rewrite Hv. cbn.
  destruct (bool_decide (errors = [])); cbn; rewrite ?Hs; cbn; js_lists; done.
Qed.

Lemma validateRequest_passes_or_rejects_witness :
  trace_of
    (Validation.validateRequest (stocked ∅ []) (item_request None (JObj None []) []))
    (sample_state ∅ false)
  = [Call "validationResult" []; Next None].
Proof.
  apply (validateRequest_passes_or_rejects (stocked ∅ [])
           (item_request None (JObj None []) []) (sample_state ∅ false) []);
    reflexivity.
Defined.

(** X10. When express-validator itself throws an error, the middleware
    answers 500 with the fixed message and the text of that error, and
    does not call [next]. *)
Theorem validateRequest_reports_validator_failure X req st v :
  validationResult X req = Throw v →
  nullish v = false →
  headersSent (st_res st) = false →
  (Validation.validateRequest X req st).1 = Normal tt
  ∧ replies_of (Validation.validateRequest X req) st
    = [(JNum 500,
        JObj None [ ("success", JBool false);
                    ("message", JStr "Internal server error during validation");
                    ("error", get v "message") ])]
  ∧ trace_of (Validation.validateRequest X req) st = [Call "validationResult" []].
Proof.
  intros Hv Hn Hs. unfold Validation.validateRequest. js_unfold.
  rewrite Hv. cbn. rewrite read_not_nullish by done. cbn.
  rewrite Hs. cbn. js_lists. done.
Qed.

Lemma validateRequest_reports_validator_failure_witness :
  replies_of
    (Validation.validateRequest (failing database_down)
       (item_request None (JObj None []) []))
    (sample_state ∅ false)
  = [(JNum 500,
      JObj None [ ("success", JBool false);
                  ("message", JStr "Internal server error during validation");
                  ("error", JStr "connection refused") ])].
Proof.
  apply (validateRequest_reports_validator_failure (failing database_down)
           (item_request None (JObj None []) []) (sample_state ∅ false)
           database_down);
    reflexivity.
Defined.

(** ** The item handlers *)

(** X11. For an [id] that passes the guard, [getItemByIdHandler] calls
    the service once, with the [id] as the string it came as, and
    answers 404 ['Item not found'] when the answer is falsy and 200 with
    the item as [data] otherwise. *)
Theorem getItemById_found_or_not X req st s item :
  valid_id req s →
  getItemById X (JStr s) = Normal item →
  headersSent (st_res st) = false →
  (Controller.getItemByIdHandler X req st).1 = Normal tt
  ∧ trace_of (Controller.getItemByIdHandler X req) st
    = [Call "getItemById" [JStr s]]
  ∧ replies_of (Controller.getItemByIdHandler X req) st
    = [if truthy item
       then (JNum 200,
             JObj None [ ("success", JBool true);
                         ("data", item);
                         ("message", JStr "Item retrieved successfully") ])
       else (JNum 404,
             JObj None [ ("success", JBool false);
                         ("message", JStr "Item not found") ])].
Proof.
  intros Hid Hitem Hs. destruct (valid_id_passes _ _ Hid) as [Hp Hg].
  unfold Controller.getItemByIdHandler, Controller.not_found. js_unfold.
  rewrite Hp, Hg, Hitem. cbn.
  destruct (truthy item); cbn; rewrite Hs; cbn; js_lists; done.
Qed.

Lemma getItemById_found_or_not_witness :
  replies_of
    (Controller.getItemByIdHandler (sample_externals production)
       (sample_request (Some "999999")))
    (sample_state ∅ false)
  = [(JNum 404,
      JObj None [ ("success", JBool false);
                  ("message", JStr "Item not found") ])].
Proof.
  apply (getItemById_found_or_not (sample_externals production)
           (sample_request (Some "999999")) (sample_state ∅ false)
           "999999" JNull).
  - split; [reflexivity|]. split; [done|]. vm_compute. reflexivity.
  - reflexivity.
  - reflexivity.
Defined.

(** X12. When the service fails with an error, [getItemByIdHandler]
    logs it and answers 500 with [success: false], the fixed message
    and the text of the error. *)
Theorem getItemById_service_failure X req st s v :
  valid_id req s →
  getItemById X (JStr s) = Throw v →
  nullish v = false →
  headersSent (st_res st) = false →
  (Controller.getItemByIdHandler X req st).1 = Normal tt
  ∧ replies_of (Controller.getItemByIdHandler X req) st
    = [(JNum 500,
        JObj None [ ("success", JBool false);
                    ("message", JStr "Internal server error");
                    ("error", get v "message") ])]
  ∧ logged_of (Controller.getItemByIdHandler X req) st
    = [[Value (JStr "Error in getItemByIdHandler:"); Value v]].
Proof.
  intros Hid Hfail Hn Hs. destruct (valid_id_passes _ _ Hid) as [Hp Hg].
  unfold Controller.getItemByIdHandler, Controller.internal_error. js_unfold.
  rewrite Hp, Hg, Hfail. cbn. rewrite read_not_nullish by done. cbn.
  rewrite Hs. cbn. js_lists. done.
Qed.

Lemma getItemById_service_failure_witness :
  replies_of
    (Controller.getItemByIdHandler (failing database_down)
       (sample_request (Some "12")))
    (sample_state ∅ false)
  = [(JNum 500,
      JObj None [ ("success", JBool false);
                  ("message", JStr "Internal server error");
                  ("error", JStr "connection refused") ])].
Proof.
  apply (getItemById_service_failure (failing database_down)
           (sample_request (Some "12")) (sample_state ∅ false) "12" database_down).
  - split; [reflexivity|]. split; [done|]. vm_compute. reflexivity.
  - reflexivity.
  - reflexivity.
  - reflexivity.
Defined.

(** X13. When the service fails with [undefined] or [null], the [catch]
    block of [getItemByIdHandler] itself throws on [error.message]: the
    failure is logged and status 500 is set, but no reply is written
    and the handler ends with a [TypeError]. *)
Theorem getItemById_nullish_failure_goes_unanswered X req st s v :
  valid_id req s →
  getItemById X (JStr s) = Throw v →
  nullish v = true →
  (∃ e, (Controller.getItemByIdHandler X req st).1 = Throw e
        ∧ get e "name" = JStr "TypeError")
  ∧ replies_of (Controller.getItemByIdHandler X req) st = []
  ∧ logged_of (Controller.getItemByIdHandler X req) st
    = [[Value (JStr "Error in getItemByIdHandler:"); Value v]].
Proof.
  intros Hid Hfail Hn. destruct (valid_id_passes _ _ Hid) as [Hp Hg].
  unfold Controller.getItemByIdHandler, Controller.internal_error. js_unfold.
  rewrite Hp, Hg, Hfail. cbn. rewrite read_nullish by done. cbn.
  js_lists. split; [by eexists|done].
Qed.

Lemma getItemById_nullish_failure_goes_unanswered_witness :
  replies_of
    (Controller.getItemByIdHandler (failing JUndefined) (sample_request (Some "12")))
    (sample_state ∅ false)
  = [].
Proof.
  apply (getItemById_nullish_failure_goes_unanswered (failing JUndefined)
           (sample_request (Some "12")) (sample_state ∅ false) "12" JUndefined).
  - split; [reflexivity|]. split; [done|]. vm_compute. reflexivity.
  - reflexivity.
  - reflexivity.
Defined.

(** X14. [updateItemHandler] and [deleteItemHandler] stop at an [id]
    that is absent, empty or not a number: each answers 400 ['Invalid ID
    parameter'] and calls neither the validator nor the service. *)
Theorem invalid_id_stops_update_and_delete X req st :
  headersSent (st_res st) = false →
  (params req !! "id" = None
   ∨ ∃ s, params req !! "id" = Some s ∧ (s = "" ∨ isNaN_string s = true)) →
  (replies_of (Controller.updateItemHandler X req) st
   = [(JNum 400,
       JObj None [ ("success", JBool false);
                   ("message", JStr "Invalid ID parameter") ])]
   ∧ trace_of (Controller.updateItemHandler X req) st = [])
  ∧ (replies_of (Controller.deleteItemHandler X req) st
     = [(JNum 400,
         JObj None [ ("success", JBool false);
                     ("message", JStr "Invalid ID parameter") ])]
     ∧ trace_of (Controller.deleteItemHandler X req) st = []).
Proof.
  intros Hs Hid.
  assert (Hguard : negb (truthy (Controller.param req "id"))
                   || isNaN (Controller.param req "id") = true).
  { unfold Controller.param.
    destruct Hid as [->|(s & -> & [-> | Hnan])]; [done..|].
    cbn [isNaN]. rewrite Hnan. apply orb_true_r. }
  unfold Controller.updateItemHandler, Controller.deleteItemHandler,
    Controller.invalid_id. js_unfold.
  rewrite Hguard. cbn. rewrite Hs. cbn. js_lists. done.
Qed.

Lemma invalid_id_stops_update_and_delete_witness :
  trace_of
    (Controller.deleteItemHandler (stocked ∅ [])
       (item_request (Some "12abc") (JObj None []) []))
    (sample_state ∅ false)
  = [].
Proof.
  apply (invalid_id_stops_update_and_delete (stocked ∅ [])
           (item_request (Some "12abc") (JObj None []) []) (sample_state ∅ false)).
  - reflexivity.
  - right. exists "12abc". split; [vm_compute; reflexivity|].
    right. vm_compute. reflexivity.
Defined.

(** X15. When the validator reports failures, [createItemHandler]
    answers 400 ['Validation failed'] with all of them and never calls
    the service. *)
Theorem create_rejects_invalid_input X req st errors :
  validationResult X req = Normal errors →
  errors ≠ [] →
  headersSent (st_res st) = false →
  replies_of (Controller.createItemHandler X req) st
  = [(JNum 400,
      JObj None [ ("success", JBool false);
                  ("message", JStr "Validation failed");
                  ("errors", JArr errors) ])]
  ∧ trace_of (Controller.createItemHandler X req) st = [Call "validationResult" []].
Proof.
  intros Hv Hne Hs.
  unfold Controller.createItemHandler, Controller.validation_failed. js_unfold.
  rewrite Hv. cbn. rewrite bool_decide_eq_false_2 by done. cbn.
  rewrite Hs. cbn. js_lists. done.
Qed.

Lemma create_rejects_invalid_input_witness :
  trace_of
    (Controller.createItemHandler (stocked ∅ [name_required])
       (item_request None (JObj None []) []))
    (sample_state ∅ false)
  = [Call "validationResult" []].
Proof.
  apply (create_rejects_invalid_input (stocked ∅ [name_required])
           (item_request None (JObj None []) []) (sample_state ∅ false)
           [name_required]);
    [reflexivity | done | reflexivity].
Defined.



(** X17. When the validator reports no failure and the body is
    [undefined] or [null], on a response whose headers have not left,
    [createItemHandler] never reaches the service: reading the fields
    throws, and the handler answers 500 with [success: false] and the
    message ['Internal server error']. *)
Theorem create_without_body_is_500 X req st :
  validationResult X req = Normal [] →
  nullish (body req) = true →
  headersSent (st_res st) = false →
  trace_of (Controller.createItemHandler X req) st = [Call "validationResult" []]
  ∧ ∃ body,
      replies_of (Controller.createItemHandler X req) st = [(JNum 500, body)]
      ∧ get body "success" = JBool false
      ∧ get body "message" = JStr "Internal server error".
Proof.
  intros Hv Hb Hs.
  destruct (destructure_body_nullish req
              {| st_ticks := st_ticks st; st_console := st_console st;
                 st_heap := st_heap st; st_res := st_res st;
                 st_trace := st_trace st ++ [Call "validationResult" []] |} Hb)
    as (e & He & Hne).
  unfold Controller.createItemHandler, Controller.internal_error. js_unfold.
  rewrite Hv. cbn. rewrite He. cbn. rewrite read_not_nullish by done. cbn.
  rewrite Hs. cbn. js_lists. split; [done|]. by eexists.
Qed.

Lemma create_without_body_is_500_witness :
  trace_of
    (Controller.createItemHandler (stocked ∅ []) (item_request None JUndefined []))
    (sample_state ∅ false)
  = [Call "validationResult" []].
Proof.
  apply (create_without_body_is_500 (stocked ∅ [])
           (item_request None JUndefined []) (sample_state ∅ false));
    reflexivity.
Defined.

(** X18. [updateItemHandler] checks in this order: the [id], then the
    validator's report, then the body.  With a valid [id] and
    validation failures it answers 400 ['Validation failed'] and the
    service is not called. *)
Theorem update_rejects_invalid_input X req st s errors :
  valid_id req s →
  validationResult X req = Normal errors →
  errors ≠ [] →
  headersSent (st_res st) = false →
  replies_of (Controller.updateItemHandler X req) st
  = [(JNum 400,
      JObj None [ ("success", JBool false);
                  ("message", JStr "Validation failed");
                  ("errors", JArr errors) ])]
  ∧ trace_of (Controller.updateItemHandler X req) st = [Call "validationResult" []].
Proof.
  intros Hid Hv Hne Hs. destruct (valid_id_passes _ _ Hid) as [Hp Hg].
  unfold Controller.updateItemHandler, Controller.validation_failed. js_unfold.
  rewrite Hp, Hg, Hv. cbn. rewrite bool_decide_eq_false_2 by done. cbn.
  rewrite Hs. cbn. js_lists. done.
Qed.

Lemma update_rejects_invalid_input_witness :
  trace_of
    (Controller.updateItemHandler (stocked ∅ [name_required])
       (item_request (Some "42") (JObj None []) []))
    (sample_state ∅ false)
  = [Call "validationResult" []].
Proof.
  apply (update_rejects_invalid_input (stocked ∅ [name_required])
           (item_request (Some "42") (JObj None []) []) (sample_state ∅ false)
           "42" [name_required]).
  - split; [reflexivity|]. split; [done|]. vm_compute. reflexivity.
  - reflexivity.
  - done.
  - reflexivity.
Defined.



(** X20. With a valid [id], [deleteItemHandler] calls the service once
    and answers 404 ['Item not found'] when its answer is falsy, and
    otherwise 200 with a message and no [data]. *)
Theorem delete_found_or_not X req st s deleted :
  valid_id req s →
  deleteItem X (JStr s) = Normal deleted →
  headersSent (st_res st) = false →
  trace_of (Controller.deleteItemHandler X req) st = [Call "deleteItem" [JStr s]]
  ∧ replies_of (Controller.deleteItemHandler X req) st
    = [if truthy deleted
       then (JNum 200,
             JObj None [ ("success", JBool true);
                         ("message", JStr "Item deleted successfully") ])
       else (JNum 404,
             JObj None [ ("success", JBool false);
                         ("message", JStr "Item not found") ])].
Proof.
  intros Hid Hdel Hs. destruct (valid_id_passes _ _ Hid) as [Hp Hg].
  unfold Controller.deleteItemHandler, Controller.not_found. js_unfold.
  rewrite Hp, Hg, Hdel. cbn.
  destruct (truthy deleted); cbn; rewrite Hs; cbn; js_lists; done.
Qed.

Lemma delete_found_or_not_witness :
  replies_of
    (Controller.deleteItemHandler (stocked ∅ [])
       (item_request (Some "42") (JObj None []) []))
    (sample_state ∅ false)
  = [(JNum 200,
      JObj None [ ("success", JBool true);
                  ("message", JStr "Item deleted successfully") ])].
Proof.
  apply (delete_found_or_not (stocked ∅ [])
           (item_request (Some "42") (JObj None []) []) (sample_state ∅ false)
           "42" (JBool true)).
  - split; [reflexivity|]. split; [done|]. vm_compute. reflexivity.
  - reflexivity.
  - reflexivity.
Defined.








(** ** The router of [routes/index.js] *)

(** X24. The welcome route and the router's health route answer 200
    with their fixed body and the clock reading, or nothing at all: on
    a response whose headers have left, [res.json] throws in the [try]
    and again in the [catch], so that the 500 reply written there is
    never sent. *)
Theorem router_root_and_health_never_answer_500 X req st :
  replies_of (Routes.root X req) st
  = (if headersSent (st_res st) then []
     else [(JNum 200,
            JObj None [ ("message", JStr "Bienvenido a la API");
                        ("timestamp", JStr (clock X (st_ticks st))) ])])
  ∧ replies_of (Routes.health X req) st
    = (if headersSent (st_res st) then []
       else [(JNum 200,
              JObj None [ ("status", JStr "OK");
                          ("timestamp", JStr (clock X (st_ticks st))) ])])
  ∧ (Routes.root X req st).1
    = (if headersSent (st_res st) then Throw headers_sent_error else Normal tt)
  ∧ (Routes.health X req st).1
    = (if headersSent (st_res st) then Throw headers_sent_error else Normal tt).
Proof.
  unfold Routes.root, Routes.health, Routes.failed. js_unfold. cbn.
  destruct (headersSent (st_res st)) eqn:Hs; cbn; rewrite ?Hs; cbn;
    js_lists; done.
Qed.

(** ** The configuration *)

Lemma upload_path_is_a_string X :
  js_or (env_get X "UPLOAD_PATH") (JStr "./uploads") = JStr (upload_path X).
Proof.
  unfold upload_path, env_get, js_or.
  destruct (env X !! "UPLOAD_PATH") as [[|c s]|]; reflexivity.
Qed.

(** X25. [getConfig] fails before it touches the file system when a
    required variable is missing.  Otherwise it checks the upload
    directory, [UPLOAD_PATH] or [./uploads], once, and asks for it to
    be created, with its parents, only when the check fails. *)
Theorem getConfig_file_system_calls X st :
  trace_of (Config.getConfig X) st
  = match Config.validateEnv (env X) with
    | Throw _ => []
    | Normal _ =>
        Call "fs.access" [JStr (upload_path X)]
        :: match fs_access X (upload_path X) with
           | Normal _ => []
           | Throw _ =>
               [Call "fs.mkdir" [JStr (upload_path X);
                                 JObj None [("recursive", JBool true)]]]
           end
    end.
Proof.
  unfold Config.getConfig. js_unfold.
  destruct (Config.validateEnv (env X)) as [[]|v]; [|cbn; by js_lists].
  assert (Hup : truthy (JStr (upload_path X)) = true).
  { rewrite <- upload_path_is_a_string. by apply truthy_js_or_r. }
  change (get (JObj None _) "uploadPath")
    with (js_or (env_get X "UPLOAD_PATH") (JStr "./uploads")).
  rewrite !upload_path_is_a_string, Hup. cbn [to_string].
  destruct (fs_access X (upload_path X)) as [[]|?]; cbn; [by js_lists|].
  destruct (fs_mkdir X (upload_path X)) as [[]|?]; cbn; by js_lists.
Qed.

(** X26. Whenever [getConfig] fails, for whatever reason, what it
    throws is the one error ['Failed to load application
    configuration']; the cause is written to the console, once, and is
    not part of what is thrown. *)
Theorem getConfig_masks_the_cause X st :
  rejects (Config.getConfig X st).1 →
  (Config.getConfig X st).1
  = Throw (JObj (Some "Error")
             [("message", JStr "Failed to load application configuration")])
  ∧ ∃ cause,
      logged_of (Config.getConfig X) st
      = [[Value (JStr "Error loading configuration:"); Value cause]].
Proof.
  unfold Config.getConfig. js_unfold.
  destruct (Config.validateEnv (env X)) as [[]|v].
  2: { cbn. intros _. split; [done|]. exists v. by js_lists. }
  assert (Hup : truthy (js_or (env_get X "UPLOAD_PATH") (JStr "./uploads")) = true)
    by by apply truthy_js_or_r.
  change (get (JObj None _) "uploadPath")
    with (js_or (env_get X "UPLOAD_PATH") (JStr "./uploads")).
  rewrite Hup.
  destruct (fs_access X _) as [[]|?]; cbn; [done|].
  destruct (fs_mkdir X _) as [[]|cause]; cbn; [done|].
  intros _. split; [done|]. exists cause. by js_lists.
Qed.

Lemma getConfig_masks_the_cause_witness :
  (Config.getConfig (sample_externals ∅) (sample_state ∅ false)).1
  = Throw (JObj (Some "Error")
             [("message", JStr "Failed to load application configuration")]).
Proof.
  apply (getConfig_masks_the_cause (sample_externals ∅) (sample_state ∅ false)).
  vm_compute. exact I.
Defined.

(** The configuration object, when there is one. *)
Lemma getConfig_value X st config :
  (Config.getConfig X st).1 = Normal config →
  ¬ some_required_missing (env X)
  ∧ config
    = JObj None
        [ ("env", js_or (env_get X "NODE_ENV") (JStr "development"));
          ("port", js_or (parseInt (env_get X "PORT")) (JNum 3000));
          ("host", js_or (env_get X "HOST") (JStr "localhost"));
          ("databaseUrl", env_get X "DATABASE_URL");
          ("jwtSecret", env_get X "JWT_SECRET");
          ("jwtExpiration", js_or (parseInt (env_get X "JWT_EXPIRATION")) (JNum 3600));
          ("redisUrl", js_or (env_get X "REDIS_URL") JNull);
          ("logLevel", js_or (env_get X "LOG_LEVEL") (JStr "info"));
          ("enableCors", JBool (is_str (env_get X "ENABLE_CORS") "true"));
          ("uploadPath", js_or (env_get X "UPLOAD_PATH") (JStr "./uploads"));
          ("maxFileSize", js_or (parseInt (env_get X "MAX_FILE_SIZE")) (JNum 10485760)) ].
Proof.
  intros Hok. split.
  { intros Hmiss.
    assert (Hrej : rejects (Config.getConfig X st).1)
      by (apply getConfig_throws; by left).
    rewrite Hok in Hrej. exact Hrej. }
  revert Hok. unfold Config.getConfig. js_unfold.
  destruct (Config.validateEnv (env X)) as [[]|v]; [|done].
  assert (Hup : truthy (js_or (env_get X "UPLOAD_PATH") (JStr "./uploads")) = true)
    by by apply truthy_js_or_r.
  change (get (JObj None _) "uploadPath")
    with (js_or (env_get X "UPLOAD_PATH") (JStr "./uploads")).
  rewrite Hup.
  destruct (fs_access X _) as [[]|?]; cbn [fst]; [by intros [= <-]|].
  destruct (fs_mkdir X _) as [[]|?]; cbn [fst]; [by intros [= <-]|done].
Qed.





Lemma required_is_set env k :
  ¬ some_required_missing env → k ∈ Config.requiredVars →
  ∃ v, env !! k = Some v ∧ v ≠ "".
Proof.
  intros Hno Hk. destruct (env !! k) as [v|] eqn:Hv.
  - exists v. split; [done|]. intros ->. apply Hno. exists k. split; [done|by right].
  - destruct Hno. exists k. split; [done|by left].
Qed.

(** X28. In a configuration that [getConfig] returns, [env],
    [databaseUrl] and [jwtSecret] are the values of [NODE_ENV],
    [DATABASE_URL] and [JWT_SECRET], none of them empty: the fallback
    ['development'] of [env] is never what is returned.  [enableCors]
    is true only for the exact text ['true']. *)
Theorem getConfig_required_values X st config :
  (Config.getConfig X st).1 = Normal config →
  ∃ node_env database_url jwt_secret,
    env X !! "NODE_ENV" = Some node_env ∧ node_env ≠ ""
    ∧ env X !! "DATABASE_URL" = Some database_url ∧ database_url ≠ ""
    ∧ env X !! "JWT_SECRET" = Some jwt_secret ∧ jwt_secret ≠ ""
    ∧ get config "env" = JStr node_env
    ∧ get config "databaseUrl" = JStr database_url
    ∧ get config "jwtSecret" = JStr jwt_secret
    ∧ get config "enableCors"
      = JBool (bool_decide (env X !! "ENABLE_CORS" = Some "true")).
Proof.
  intros Hok. destruct (getConfig_value X st config Hok) as [Hno ->].
  destruct (required_is_set _ "NODE_ENV" Hno) as (e & He & Hen);
    [unfold Config.requiredVars; set_solver|].
  destruct (required_is_set _ "DATABASE_URL" Hno) as (d & Hd & Hdn);
    [unfold Config.requiredVars; set_solver|].
  destruct (required_is_set _ "JWT_SECRET" Hno) as (j & Hj & Hjn);
    [unfold Config.requiredVars; set_solver|].
  exists e, d, j. repeat (split; [done|]).
  change (get (JObj None _) "env")
    with (js_or (env_get X "NODE_ENV") (JStr "development")).
  change (get (JObj None _) "databaseUrl") with (env_get X "DATABASE_URL").
  change (get (JObj None _) "jwtSecret") with (env_get X "JWT_SECRET").
  change (get (JObj None _) "enableCors")
    with (JBool (is_str (env_get X "ENABLE_CORS") "true")).
  unfold env_get. rewrite He, Hd, Hj.
  split; [unfold js_or; by rewrite truthy_JStr|]. split; [done|]. split; [done|].
  f_equal. destruct (env X !! "ENABLE_CORS") as [c|]; cbn.
  - apply bool_decide_ext. split; [by intros ->|by intros [= ->]].
  - by rewrite bool_decide_eq_false_2.
Qed.

Lemma getConfig_required_values_witness :
  ∃ config,
    (Config.getConfig (sample_externals complete_env) (sample_state ∅ false)).1
    = Normal config
    ∧ get config "env" = JStr "production".
Proof.
  eexists. split; [vm_compute; reflexivity|].
  destruct (getConfig_required_values (sample_externals complete_env)
              (sample_state ∅ false)
              (JObj None
                 [ ("env", JStr "production"); ("port", JNum 8080);
                   ("host", JStr "localhost");
                   ("databaseUrl", JStr "mongodb://db/app");
                   ("jwtSecret", JStr "s3cret"); ("jwtExpiration", JNum 3600);
                   ("redisUrl", JNull); ("logLevel", JStr "info");
                   ("enableCors", JBool false); ("uploadPath", JStr "./uploads");
                   ("maxFileSize", JNum 10485760) ]))
    as (e & d & j & He & _ & _ & _ & _ & _ & Henv & _); [vm_compute; reflexivity|].
  reflexivity.
Defined.

(** X29. The error of [validateEnv] names the missing variables, all
    of them and only them, each once and in the order [NODE_ENV],
    [PORT], [DATABASE_URL], [JWT_SECRET]. *)
Theorem validateEnv_names_what_is_missing env :
  some_required_missing env →
  ∃ names,
    Config.validateEnv env
    = Throw (JObj (Some "Error")
               [("message",
                 JStr ("Missing required environment variables: "
                       +:+ Config.join_comma names))])
    ∧ names `sublist_of` Config.requiredVars
    ∧ names ≠ []
    ∧ ∀ k, k ∈ names
           ↔ k ∈ Config.requiredVars ∧ (env !! k = None ∨ env !! k = Some "").
Proof.
  intros Hmiss. exists (Config.missingVars env).
  assert (Hne : Config.missingVars env ≠ []).
  { destruct Hmiss as (k & Hk). apply missingVars_spec in Hk.
    intros Heq. rewrite Heq in Hk. by apply elem_of_nil in Hk. }
  split.
  { unfold Config.validateEnv.
    destruct (Config.missingVars env); [done|reflexivity]. }
  split; [apply sublist_filter|]. split; [exact Hne|]. apply missingVars_spec.
Qed.

Lemma validateEnv_names_what_is_missing_witness :
  Config.validateEnv {["NODE_ENV" := "production"; "PORT" := ""; "DATABASE_URL" := "db"]}
  = Throw (JObj (Some "Error")
             [("message",
               JStr "Missing required environment variables: PORT, JWT_SECRET")]).
Proof.
  destruct (validateEnv_names_what_is_missing
              {["NODE_ENV" := "production"; "PORT" := ""; "DATABASE_URL" := "db"]})
    as (names & Hthrow & _).
  - exists "PORT". split; [unfold Config.requiredVars; set_solver|].
    right. vm_compute. reflexivity.
  - vm_compute. reflexivity.
Defined.

(** ** The set-up of the server *)

Lemma split_on_not_nil sep s : ServerSetup.split_on sep s ≠ [].
Proof.
  destruct s as [|c r]; cbn; [done|].
  destruct (bool_decide (c = sep)); [done|].
  by destruct (ServerSetup.split_on sep r).
Qed.

Lemma join_with_cons sep x y r :
  join_with sep (x :: y :: r) = x +:+ sep +:+ join_with sep (y :: r).
Proof. reflexivity. Qed.

Lemma split_on_spec (sep : ascii) s :
  join_with (String sep EmptyString) (ServerSetup.split_on sep s) = s
  ∧ length (ServerSetup.split_on sep s) = S (occurrences sep s)
  ∧ Forall (λ piece, occurrences sep piece = O) (ServerSetup.split_on sep s).
Proof.
  induction s as [|c r (IHjoin & IHlen & IHall)]; cbn [ServerSetup.split_on occurrences].
  - split; [done|]. split; [done|]. by repeat constructor.
  - destruct (bool_decide (c = sep)) eqn:Hc.
    + assert (Hsep : c = sep) by by apply bool_decide_eq_true in Hc.
      destruct (ServerSetup.split_on sep r) as [|p ps] eqn:Hsplit;
        [by destruct (split_on_not_nil sep r)|].
      split; [by rewrite join_with_cons, IHjoin, Hsep|].
      split; [cbn [length] in *; cbn; by rewrite IHlen|].
      by constructor.
    + destruct (ServerSetup.split_on sep r) as [|p ps] eqn:Hsplit;
        [by destruct (split_on_not_nil sep r)|].
      split.
      { rewrite <- IHjoin. destruct ps; reflexivity. }
      split; [exact IHlen|].
      apply Forall_cons in IHall as [Hp Hps].
      constructor; [|done]. cbn [occurrences]. by rewrite Hc, Hp.
Qed.

(** X30. The origins given to [cors] are the default
    [http://localhost:3000] only when [ALLOWED_ORIGINS] is unset.  When
    it is set, they are its text cut at every comma: one piece more
    than there are commas, none holding a comma, and joined by commas
    they give the text back; set to the empty text, the only origin is
    the empty one. *)
Theorem cors_origins X :
  (env X !! "ALLOWED_ORIGINS" = None →
   ServerSetup.corsOrigin X = JArr [JStr "http://localhost:3000"])
  ∧ (env X !! "ALLOWED_ORIGINS" = Some "" →
     ServerSetup.corsOrigin X = JArr [JStr ""])
  ∧ (∀ s, env X !! "ALLOWED_ORIGINS" = Some s →
          ∃ pieces,
            ServerSetup.corsOrigin X = JArr (JStr <$> pieces)
            ∧ join_with "," pieces = s
            ∧ length pieces = S (occurrences "," s)
            ∧ Forall (λ piece, occurrences "," piece = O) pieces).
Proof.
  unfold ServerSetup.corsOrigin, ServerSetup.splitAllowedOrigins.
  split; [by intros ->|]. split; [by intros ->|].
  intros s ->. exists (ServerSetup.split_on "," s).
  split; [reflexivity|]. apply (split_on_spec "," s).
Qed.
